(** * Ledger wallet connection manager

    A shallow embedding of the two source files of the library:
    - [Index]: [src/index.js], the current connection manager;
    - [Legacy]: the earlier revision of the same manager, which also
      carries the liveness monitor ([polling]).

    JavaScript's [async] functions are embedded as resumable tasks.  A call
    runs the function up to its first [await]; the suspended rest is kept
    in a promise table under a program point that names the [await] and
    holds the live local variables.  The environment (device, timers, the
    calling program) drives the system through [Event]s, one synchronous
    run-to-completion block per event.  Everything the code asks of its
    collaborators is recorded, in order, as an [Effect]. *)

From Stdlib Require Import ZArith Lia Ascii String.
From stdpp Require Import base option list gmap strings pretty.

(** ** Values shared by both revisions *)

Inductive JsError : Type :=
| Error (message : string)
    (* [new Error(message)], thrown by the library itself *)
| TypeError
    (* raised by the engine when a property of null/undefined is read *)
| Thrown (id : option string) (currentLock : option string).
    (* an error object raised by a collaborator; [id] and [currentLock]
       are the two fields the library inspects *)

(** The outcome of a call or of a settled promise. *)
Inductive Result (A : Type) : Type :=
| Ok (a : A)
| Err (e : JsError).

Arguments Ok {A} a.
Arguments Err {A} e.

Definition error_id (e : JsError) : option string :=
  match e with Thrown id _ => id | _ => None end.

Definition error_currentLock (e : JsError) : option string :=
  match e with Thrown _ l => l | _ => None end.

(** The two errors the library creates, under the names the specification
    gives them. *)
Definition InvalidAccountError : JsError := Error "Account number starts at 1.".
Definition NotConnectedError : JsError := Error "No ledger wallet connected.".

#[global] Instance JsError_eq_dec : EqDecision JsError.
Proof. solve_decision. Defined.

(** Truthiness of a nullable string: [null], [undefined] and [""] are falsy. *)
Definition truthy (v : option string) : bool :=
  match v with
  | Some s => negb (String.eqb s "")
  | None => false
  end.

Definition Bytes : Type := list Byte.byte.

(** [xdr.DecoratedSignature]. *)
Record DecoratedSignature : Type := {
  hint : Bytes;
  signature : Bytes
}.

(** A StellarSdk transaction, as far as the library touches it: the value
    of [signatureBase()] and the mutable [signatures] list. *)
Record Transaction : Type := {
  signatureBase : Bytes;
  signatures : list DecoratedSignature
}.

Definition push (d : DecoratedSignature) (tx : Transaction) : Transaction :=
  {| signatureBase := signatureBase tx; signatures := signatures tx ++ [d] |}.

(** Promises and transaction objects are referred to by identity. *)
Definition Pid : Type := nat.
Definition TxRef : Type := nat.
Definition Transport : Type := nat.

(** The account identifier accepted by [ledger.connect] in [src/index.js]:
    a number or a string.  Account numbers are integers; on the range of
    integers a JavaScript number holds exactly, [account - 1] and the
    decimal rendering in a template literal are those of [Z]. *)
Inductive Account : Type :=
| AccountNumber (n : Z)
| AccountPath (s : string).

(** * The current revision: [src/index.js] *)

Module Index.

(** ** State *)

(** [new StellarApp(transport)]. *)
Inductive App : Type := StellarApp (t : Transport).

(** The properties of the exported [ledger] object that hold the session. *)
Record Ledger : Type := {
  publicKey : option string;
  path : option string;
  version : option string;
  multiOpsEnabled : option bool;
  transport : option Transport;
  application : option App
}.

(** The module variable [connection]: unset, [true] (while [connect] runs
    its first synchronous block) or the promise of a [connect] call. *)
Inductive Marker : Type := MNull | MTrue | MPromise (p : Pid).

Definition marker_truthy (m : Marker) : bool :=
  match m with MNull => false | _ => true end.

(** What a promise of the library resolves to. *)
Inductive Value : Type := VUndefined | VTrue | VTx (tx : TxRef).

(** Program points: one per [await] of the source (line numbers of
    [src/index.js]), with the local variables that are live across it. *)
Inductive Task : Type :=
| connect_at_create (path : string) (startTime : Z)               (* 139 *)
| connect_at_getPublicKey (path : string) (startTime : Z)         (* 145 *)
| connect_at_getAppConfiguration (path : string) (startTime : Z)  (* 146 *)
| ledger_connect_at_disconnection (path : string) (d : Pid)       (* 112 *)
| ledger_connect_return (c : Pid)                                 (* 115 *)
| sign_at_signTransaction (transaction : TxRef)                   (* 182 *)
| disconnect_at_disconnection (d : Pid)                      (* 205, 207 *)
| closeTransport_at_close (t : Transport)                         (* 215 *)
| then_onDisconnect (d : Pid).                                    (* 204 *)

Inductive Promise : Type :=
| Pending (t : Task)
| Settled (r : Result Value).

(** Requests to the collaborators and to the console, as observed from
    outside. *)
Inductive Effect : Type :=
| FxLog (message : string)
| FxConsoleError (e : JsError)
| FxTransportCreate
| FxGetPublicKey (a : App) (path : string)
| FxGetAppConfiguration (a : App)
| FxSignTransaction (a : App) (path : option string) (base : Bytes)
| FxClose (t : Transport)
| FxRemoveIframe
| FxOnConnect
| FxOnDisconnect.

Record World : Type := {
  ledger : Ledger;
  connection : Marker;
  disconnection : option Pid;
  onConnectHandler : bool;     (* [typeof ledger.onConnect === "function"] *)
  onDisconnectHandler : bool;  (* [typeof ledger.onDisconnect === "function"] *)
  promises : gmap Pid Promise;
  next : Pid;                  (* the next fresh promise *)
  txs : gmap TxRef Transaction;
  now : Z;                     (* [+new Date()], in milliseconds *)
  effects : list Effect
}.

Definition set_ledger (l : Ledger) (w : World) : World :=
  {| ledger := l; connection := connection w; disconnection := disconnection w;
     onConnectHandler := onConnectHandler w;
     onDisconnectHandler := onDisconnectHandler w;
     promises := promises w; next := next w; txs := txs w; now := now w;
     effects := effects w |}.

Definition set_connection (m : Marker) (w : World) : World :=
  {| ledger := ledger w; connection := m; disconnection := disconnection w;
     onConnectHandler := onConnectHandler w;
     onDisconnectHandler := onDisconnectHandler w;
     promises := promises w; next := next w; txs := txs w; now := now w;
     effects := effects w |}.

Definition set_disconnection (d : option Pid) (w : World) : World :=
  {| ledger := ledger w; connection := connection w; disconnection := d;
     onConnectHandler := onConnectHandler w;
     onDisconnectHandler := onDisconnectHandler w;
     promises := promises w; next := next w; txs := txs w; now := now w;
     effects := effects w |}.

Definition set_promises (ps : gmap Pid Promise) (w : World) : World :=
  {| ledger := ledger w; connection := connection w;
     disconnection := disconnection w;
     onConnectHandler := onConnectHandler w;
     onDisconnectHandler := onDisconnectHandler w;
     promises := ps; next := next w; txs := txs w; now := now w;
     effects := effects w |}.

Definition set_next (n : Pid) (w : World) : World :=
  {| ledger := ledger w; connection := connection w;
     disconnection := disconnection w;
     onConnectHandler := onConnectHandler w;
     onDisconnectHandler := onDisconnectHandler w;
     promises := promises w; next := n; txs := txs w; now := now w;
     effects := effects w |}.

Definition set_txs (m : gmap TxRef Transaction) (w : World) : World :=
  {| ledger := ledger w; connection := connection w;
     disconnection := disconnection w;
     onConnectHandler := onConnectHandler w;
     onDisconnectHandler := onDisconnectHandler w;
     promises := promises w; next := next w; txs := m; now := now w;
     effects := effects w |}.

Definition set_now (t : Z) (w : World) : World :=
  {| ledger := ledger w; connection := connection w;
     disconnection := disconnection w;
     onConnectHandler := onConnectHandler w;
     onDisconnectHandler := onDisconnectHandler w;
     promises := promises w; next := next w; txs := txs w; now := t;
     effects := effects w |}.

Definition set_effects (fx : list Effect) (w : World) : World :=
  {| ledger := ledger w; connection := connection w;
     disconnection := disconnection w;
     onConnectHandler := onConnectHandler w;
     onDisconnectHandler := onDisconnectHandler w;
     promises := promises w; next := next w; txs := txs w; now := now w;
     effects := fx |}.

Definition set_onConnectHandler (b : bool) (w : World) : World :=
  {| ledger := ledger w; connection := connection w;
     disconnection := disconnection w;
     onConnectHandler := b;
     onDisconnectHandler := onDisconnectHandler w;
     promises := promises w; next := next w; txs := txs w; now := now w;
     effects := effects w |}.

Definition set_onDisconnectHandler (b : bool) (w : World) : World :=
  {| ledger := ledger w; connection := connection w;
     disconnection := disconnection w;
     onConnectHandler := onConnectHandler w;
     onDisconnectHandler := b;
     promises := promises w; next := next w; txs := txs w; now := now w;
     effects := effects w |}.

(** The runtime's part: suspending the running call at an [await],
    settling its promise, allocating a promise, recording an effect. *)
Definition suspend (p : Pid) (t : Task) (w : World) : World :=
  set_promises (<[p := Pending t]> (promises w)) w.

Definition settle (p : Pid) (r : Result Value) (w : World) : World :=
  set_promises (<[p := Settled r]> (promises w)) w.

Definition emit (e : Effect) (w : World) : World :=
  set_effects (effects w ++ [e]) w.

Definition fresh (w : World) : Pid * World := (next w, set_next (S (next w)) w).

(** ** The synchronous functions *)

Definition BIP_PATH : string := "44'/148'".

(** [account.replace(/^m\//, "")] *)
Definition strip_root (account : string) : string :=
  match account with
  | String "m"%char (String "/"%char rest) => rest
  | _ => account
  end.

(** [ledger.connect.path] (lines 118-125). *)
Definition ledger_connect_path (account : Account) : Result string :=
  match account with
  | AccountNumber n =>
      if (n <? 1)%Z then Err InvalidAccountError
      else Ok (BIP_PATH +:+ "/" +:+ pretty (n - 1)%Z +:+ "'")
  | AccountPath s => Ok (strip_root s)
  end.

(** The same resolver as an operation on the world, the way [ledger.connect]
    runs it. *)
Definition run_ledger_connect_path (account : Account) (w : World)
  : Result string * World :=
  (ledger_connect_path account, w).

Definition set_publicKey (v : option string) (l : Ledger) : Ledger :=
  {| publicKey := v; path := path l; version := version l;
     multiOpsEnabled := multiOpsEnabled l; transport := transport l;
     application := application l |}.

Definition set_path (v : option string) (l : Ledger) : Ledger :=
  {| publicKey := publicKey l; path := v; version := version l;
     multiOpsEnabled := multiOpsEnabled l; transport := transport l;
     application := application l |}.

Definition set_version (v : option string) (l : Ledger) : Ledger :=
  {| publicKey := publicKey l; path := path l; version := v;
     multiOpsEnabled := multiOpsEnabled l; transport := transport l;
     application := application l |}.

Definition set_multiOpsEnabled (v : option bool) (l : Ledger) : Ledger :=
  {| publicKey := publicKey l; path := path l; version := version l;
     multiOpsEnabled := v; transport := transport l;
     application := application l |}.

Definition set_transport (v : option Transport) (l : Ledger) : Ledger :=
  {| publicKey := publicKey l; path := path l; version := version l;
     multiOpsEnabled := multiOpsEnabled l; transport := v;
     application := application l |}.

Definition set_application (v : option App) (l : Ledger) : Ledger :=
  {| publicKey := publicKey l; path := path l; version := version l;
     multiOpsEnabled := multiOpsEnabled l; transport := transport l;
     application := v |}.

(** An assignment to a property of [ledger]. *)
Definition assign (f : Ledger -> Ledger) (w : World) : World :=
  set_ledger (f (ledger w)) w.

(** The keys of [libValues] (lines 232-239) and [ledger[key] = null]. *)
Inductive Key : Type :=
| Ktransport | Kapplication | Kpath | Kversion | KpublicKey | KmultiOpsEnabled.

Definition libValues : list Key :=
  [Ktransport; Kapplication; Kpath; Kversion; KpublicKey; KmultiOpsEnabled].

Definition set_null (key : Key) : Ledger -> Ledger :=
  match key with
  | Ktransport => set_transport None
  | Kapplication => set_application None
  | Kpath => set_path None
  | Kversion => set_version None
  | KpublicKey => set_publicKey None
  | KmultiOpsEnabled => set_multiOpsEnabled None
  end.

(** [softReset] (lines 221-225). *)
Definition softReset (w : World) : World :=
  let w := set_connection MNull w in
  let w := assign (set_path None) w in
  assign (set_publicKey None) w.

(** [reset] (lines 227-230). *)
Definition reset (w : World) : World :=
  let w := set_connection MNull w in
  fold_left (fun w key => assign (set_null key) w) libValues w.

(** [onConnect] (lines 250-254): an [async] function without [await]; it
    runs to its end when called and its promise is dropped. *)
Definition onConnect (w : World) : World :=
  let w1 := emit (FxLog "Ledger connected") w in
  if onConnectHandler w1 then emit FxOnConnect w1 else w1.

(** [onDisconnect] (lines 263-267). *)
Definition onDisconnect (w : World) : World :=
  let w1 := emit (FxLog "Ledger disconnected") w in
  if onDisconnectHandler w1 then emit FxOnDisconnect w1 else w1.

(** ** The asynchronous functions *)

Section Program.

(** [env.isNode]: under Node.js the transport and the application are
    opened anew in every iteration of [connect]. *)
Variable isNode : bool.

(** The StellarSdk side of [sign]: [Buffer.toString("base64")] and
    [Transaction.addSignature(publicKey, signature)]. *)
Variable toBase64 : Bytes -> string.
Variable addSignature :
  option string -> string -> Transaction -> Result Transaction.

(** Lines 141-145, entered with [ledger.transport] holding [t]: open or
    reuse the application and ask the device for the public key. *)
Definition connect_getPublicKey
    (p : Pid) (path : string) (startTime : Z) (t : Transport) (w : World)
  : World :=
  let a :=
    match application (ledger w) with
    | Some a => if isNode then StellarApp t else a
    | None => StellarApp t
    end in
  let w := assign (set_application (Some a)) w in
  suspend p (connect_at_getPublicKey path startTime)
    (emit (FxGetPublicKey a path) w).

(** Lines 134-140: the loop test and the start of an iteration. *)
Definition connect_loop (p : Pid) (path : string) (w : World) : World :=
  if marker_truthy (connection w) && negb (truthy (publicKey (ledger w))) then
    let startTime := now w in
    match transport (ledger w) with
    | Some t =>
        if isNode
        then suspend p (connect_at_create path startTime)
               (emit FxTransportCreate w)
        else connect_getPublicKey p path startTime t w
    | None =>
        suspend p (connect_at_create path startTime) (emit FxTransportCreate w)
    end
  else settle p (Ok VUndefined) w.

(** Lines 149-165: the [catch] block. *)
Definition connect_catch
    (p : Pid) (path : string) (startTime : Z) (error : JsError) (w : World)
  : World :=
  let w :=
    if decide (error_id error = Some "U2FNotSupported")
    then emit FxRemoveIframe w else w in
  let errorTime := now w in
  if (errorTime - startTime <? 25000)%Z
  then settle p (Err error) (softReset w)
  else connect_loop p path w.

(** [connect] (lines 127-167), from the call to its first [await]. *)
Definition connect (p : Pid) (path : string) (w : World) : World :=
  let w := emit (FxLog "Attempting ledger connection...") w in
  let w := set_connection MTrue w in
  connect_loop p path w.

(** [connect] resumed after [await Transport.create()] (line 139). *)
Definition connect_after_create
    (p : Pid) (path : string) (startTime : Z) (r : Result Transport)
    (w : World) : World :=
  match r with
  | Ok t =>
      let w := assign (set_transport (Some t)) w in
      connect_getPublicKey p path startTime t w
  | Err error => connect_catch p path startTime error w
  end.

(** [connect] resumed after [await ledger.application.getPublicKey(path)]
    (lines 145-146).  [ledger.application] is read again for
    [getAppConfiguration]; reading a method of [null] throws inside the
    [try]. *)
Definition connect_after_getPublicKey
    (p : Pid) (path : string) (startTime : Z) (r : Result string)
    (w : World) : World :=
  match r with
  | Ok pk =>
      let w := assign (set_publicKey (Some pk)) w in
      match application (ledger w) with
      | Some a =>
          suspend p (connect_at_getAppConfiguration path startTime)
            (emit (FxGetAppConfiguration a) w)
      | None => connect_catch p path startTime TypeError w
      end
  | Err error => connect_catch p path startTime error w
  end.

(** [connect] resumed after [await ...getAppConfiguration()]
    (lines 146-148), then back to the loop test. *)
Definition connect_after_getAppConfiguration
    (p : Pid) (path : string) (startTime : Z) (r : Result (string * bool))
    (w : World) : World :=
  match r with
  | Ok (v, m) =>
      let w := assign (set_version (Some v)) w in
      let w := assign (set_multiOpsEnabled (Some m)) w in
      let w := assign (set_path (Some path)) w in
      let w := onConnect w in
      connect_loop p path w
  | Err error => connect_catch p path startTime error w
  end.

(** [ledger.connect] (lines 110-116) from line 113 on. *)
Definition ledger_connect_body (r : Pid) (target : string) (w : World)
  : World :=
  let w :=
    if truthy (path (ledger w))
       && negb (bool_decide (path (ledger w) = Some target))
    then softReset w else w in
  let w :=
    if negb (marker_truthy (connection w))
    then let '(c, w) := fresh w in
         set_connection (MPromise c) (connect c target w)
    else w in
  match connection w with
  | MPromise c => suspend r (ledger_connect_return c) w
  | MTrue => settle r (Ok VTrue) w
  | MNull => settle r (Ok VUndefined) w
  end.

(** [ledger.connect(account = 1)], from the call to its first [await]
    or to its [return].  The promise of the call is the first component. *)
Definition ledger_connect (account : option Account) (w : World)
  : Pid * World :=
  let '(r, w) := fresh w in
  let '(resolved, w) :=
    run_ledger_connect_path (default (AccountNumber 1) account) w in
  match resolved with
  | Err e => (r, settle r (Err e) w)
  | Ok target =>
      match disconnection w with
      | Some d => (r, suspend r (ledger_connect_at_disconnection target d) w)
      | None => (r, ledger_connect_body r target w)
      end
  end.

(** [ledger.sign] (lines 179-190), from the call to its [await].
    The callee [ledger.application.signTransaction] is read before the
    arguments are evaluated; an object without [signatureBase] (here: a
    reference to no transaction) makes the call throw. *)
Definition ledger_sign (transaction : TxRef) (w : World) : Pid * World :=
  let '(r, w) := fresh w in
  if negb (truthy (publicKey (ledger w)))
  then (r, settle r (Err NotConnectedError) w)
  else
    match application (ledger w), txs w !! transaction with
    | Some a, Some tx =>
        (r, suspend r (sign_at_signTransaction transaction)
              (emit (FxSignTransaction a (path (ledger w)) (signatureBase tx))
                 w))
    | _, _ => (r, settle r (Err TypeError) w)
    end.

(** [ledger.sign] resumed with the device's answer (lines 186-189). *)
Definition sign_after_signTransaction
    (r : Pid) (transaction : TxRef) (result : Result Bytes) (w : World)
  : World :=
  match result with
  | Ok sig =>
      let signature := toBase64 sig in
      match txs w !! transaction with
      | Some tx =>
          match addSignature (publicKey (ledger w)) signature tx with
          | Ok tx' =>
              settle r (Ok (VTx transaction))
                (set_txs (<[transaction := tx']> (txs w)) w)
          | Err e => settle r (Err e) w
          end
      | None => settle r (Err TypeError) w
      end
  | Err e => settle r (Err e) w
  end.

(** [closeTransport] (lines 212-219), from the call to its [await]. *)
Definition closeTransport (d : Pid) (t : Transport) (w : World) : World :=
  suspend d (closeTransport_at_close t) (emit (FxClose t) w).

(** [closeTransport] resumed: a failure of [close()] is logged. *)
Definition closeTransport_after_close
    (d : Pid) (result : Result unit) (w : World) : World :=
  match result with
  | Ok _ => settle d (Ok VUndefined) w
  | Err error => settle d (Ok VUndefined) (emit (FxConsoleError error) w)
  end.

(** [ledger.disconnect] (lines 198-210), from the call to its [await]
    or to its end. *)
Definition ledger_disconnect (w : World) : Pid * World :=
  let '(r, w) := fresh w in
  let transport := transport (ledger w) in
  let w := reset w in
  match transport with
  | Some t =>
      let '(d, w) := fresh w in
      let w := set_disconnection (Some d) (closeTransport d t w) in
      let '(h, w) := fresh w in
      let w := suspend h (then_onDisconnect d) w in
      (r, suspend r (disconnect_at_disconnection d) w)
  | None =>
      match disconnection w with
      | Some d => (r, suspend r (disconnect_at_disconnection d) w)
      | None => (r, settle r (Ok VUndefined) (set_disconnection None w))
      end
  end.

(** A call suspended at [await q], resumed with the outcome of [q]. *)
Definition wake (p : Pid) (t : Task) (outcome : Result Value) (w : World)
  : option World :=
  match t, outcome with
  | ledger_connect_at_disconnection target _, Ok _ =>
      Some (ledger_connect_body p target w)
  | ledger_connect_at_disconnection _ _, Err e => Some (settle p (Err e) w)
  | ledger_connect_return _, _ => Some (settle p outcome w)
  | disconnect_at_disconnection _, Ok _ =>
      Some (settle p (Ok VUndefined) (set_disconnection None w))
  | disconnect_at_disconnection _, Err e => Some (settle p (Err e) w)
  | then_onDisconnect _, Ok _ => Some (settle p (Ok VUndefined) (onDisconnect w))
  | then_onDisconnect _, Err e => Some (settle p (Err e) w)
  | _, _ => None
  end.

(** The promise a suspended call waits for, when it waits for a promise of
    the library rather than for a collaborator. *)
Definition awaited (t : Task) : option Pid :=
  match t with
  | ledger_connect_at_disconnection _ d => Some d
  | ledger_connect_return c => Some c
  | disconnect_at_disconnection d => Some d
  | then_onDisconnect d => Some d
  | _ => None
  end.

(** ** The system *)

Inductive Event : Type :=
| SetOnConnect (isFunction : bool)       (* [ledger.onConnect = ...] *)
| SetOnDisconnect (isFunction : bool)    (* [ledger.onDisconnect = ...] *)
| CallConnect (account : option Account)
| CallSign (transaction : TxRef)
| CallDisconnect
| TransportCreated (p : Pid) (r : Result Transport)
| GotPublicKey (p : Pid) (r : Result string)
| GotAppConfiguration (p : Pid) (r : Result (string * bool))
| Signed (p : Pid) (r : Result Bytes)
| Closed (p : Pid) (r : Result unit)
| Wake (p : Pid)
| Tick (ms : Z).

Definition step (ev : Event) (w : World) : option World :=
  match ev with
  | SetOnConnect b => Some (set_onConnectHandler b w)
  | SetOnDisconnect b => Some (set_onDisconnectHandler b w)
  | CallConnect account => Some (snd (ledger_connect account w))
  | CallSign transaction => Some (snd (ledger_sign transaction w))
  | CallDisconnect => Some (snd (ledger_disconnect w))
  | TransportCreated p r =>
      match promises w !! p with
      | Some (Pending (connect_at_create path startTime)) =>
          Some (connect_after_create p path startTime r w)
      | _ => None
      end
  | GotPublicKey p r =>
      match promises w !! p with
      | Some (Pending (connect_at_getPublicKey path startTime)) =>
          Some (connect_after_getPublicKey p path startTime r w)
      | _ => None
      end
  | GotAppConfiguration p r =>
      match promises w !! p with
      | Some (Pending (connect_at_getAppConfiguration path startTime)) =>
          Some (connect_after_getAppConfiguration p path startTime r w)
      | _ => None
      end
  | Signed p r =>
      match promises w !! p with
      | Some (Pending (sign_at_signTransaction transaction)) =>
          Some (sign_after_signTransaction p transaction r w)
      | _ => None
      end
  | Closed p r =>
      match promises w !! p with
      | Some (Pending (closeTransport_at_close _)) =>
          Some (closeTransport_after_close p r w)
      | _ => None
      end
  | Wake p =>
      match promises w !! p with
      | Some (Pending t) =>
          match awaited t with
          | Some q =>
              match promises w !! q with
              | Some (Settled outcome) => wake p t outcome w
              | _ => None
              end
          | None => None
          end
      | _ => None
      end
  | Tick ms => if (0 <=? ms)%Z then Some (set_now (now w + ms)%Z w) else None
  end.

(** A run: the events in order; [None] when one of them is not enabled. *)
Fixpoint run (evs : list Event) (w : World) : option World :=
  match evs with
  | [] => Some w
  | ev :: evs =>
      match step ev w with
      | Some w => run evs w
      | None => None
      end
  end.

End Program.

(** The module as loaded (lines 53-89, 249, 262), at time [t], holding
    the transaction objects [store]. *)
Definition init (t : Z) (store : gmap TxRef Transaction) : World :=
  {| ledger := {| publicKey := None; path := None; version := None;
                  multiOpsEnabled := None; transport := None;
                  application := None |};
     connection := MNull; disconnection := None;
     onConnectHandler := false; onDisconnectHandler := false;
     promises := ∅; next := 0; txs := store; now := t; effects := [] |}.

End Index.

(** * The earlier revision, with the liveness monitor *)

Module Legacy.

(** ** State *)

(** [new StellarApp(transport)].  The monitor compares application
    objects by identity ([===]), so each object carries the number it was
    allocated under. *)
Inductive App : Type := StellarApp (id : nat) (t : Transport).

#[global] Instance App_eq_dec : EqDecision App.
Proof. solve_decision. Defined.

Record Ledger : Type := {
  publicKey : option string;
  path : option string;
  account : option Z;
  index : option Z;
  internalFlag : option bool;
  version : option string;
  multiOpsEnabled : option bool;
  transport : option Transport;
  application : option App;
  error : option JsError
}.

(** The module variable [connection]: unset, ['x'] or a promise. *)
Inductive Marker : Type := MNull | MX | MPromise (p : Pid).

Definition marker_truthy (m : Marker) : bool :=
  match m with MNull => false | _ => true end.

Inductive Value : Type := VUndefined | VX | VTx (tx : TxRef).

(** Program points, by line of the source. *)
Inductive Task : Type :=
| connect_at_create                                             (* 104 *)
| connect_at_getPublicKey                                       (* 110 *)
| connect_at_timeout (deadline : Z)                             (* 116 *)
| ledger_connect_at_disconnection
    (target : string) (account : Z) (index : option Z)
    (internalFlag : option bool) (d : Pid)                       (* 69 *)
| ledger_connect_return (c : Pid)                                (* 85 *)
| onConnect_at_refresh (f : Pid)                                (* 131 *)
| polling_at_timeout (thisApplication : option App) (deadline : Z) (* 160 *)
| polling_at_disconnect (thisApplication : option App) (q : Pid)   (* 162 *)
| refresh_at_getAppConfiguration                                (* 170 *)
| disconnect_return (d : Pid)                                   (* 186 *)
| then_onDisconnect (d : Pid)                                   (* 185 *)
| transport_close (t : Transport)      (* the promise of [close()], 184 *)
| sign_at_signTransaction (transaction : TxRef).                (* 206 *)

Inductive Promise : Type :=
| Pending (t : Task)
| Settled (r : Result Value).

Inductive Effect : Type :=
| FxLog (message : string)
| FxTransportCreate
| FxGetPublicKey (a : App) (path : option string)
| FxGetAppConfiguration (a : App)
| FxSignTransaction (a : App) (path : option string) (base : Bytes)
| FxClose (t : Transport)
| FxSetTimeout (ms : Z)
| FxOnConnect
| FxOnDisconnect.

Record World : Type := {
  ledger : Ledger;
  connection : Marker;
  disconnection : option Pid;
  ping : bool;
  isPolling : bool;
  onConnectHandler : bool;
  onDisconnectHandler : bool;
  promises : gmap Pid Promise;
  next : nat;                  (* the next fresh promise or object *)
  txs : gmap TxRef Transaction;
  now : Z;
  effects : list Effect
}.

Definition set_ledger (l : Ledger) (w : World) : World :=
  {| ledger := l; connection := connection w; disconnection := disconnection w;
     ping := ping w; isPolling := isPolling w;
     onConnectHandler := onConnectHandler w;
     onDisconnectHandler := onDisconnectHandler w;
     promises := promises w; next := next w; txs := txs w; now := now w;
     effects := effects w |}.

Definition set_connection (m : Marker) (w : World) : World :=
  {| ledger := ledger w; connection := m; disconnection := disconnection w;
     ping := ping w; isPolling := isPolling w;
     onConnectHandler := onConnectHandler w;
     onDisconnectHandler := onDisconnectHandler w;
     promises := promises w; next := next w; txs := txs w; now := now w;
     effects := effects w |}.

Definition set_disconnection (d : option Pid) (w : World) : World :=
  {| ledger := ledger w; connection := connection w; disconnection := d;
     ping := ping w; isPolling := isPolling w;
     onConnectHandler := onConnectHandler w;
     onDisconnectHandler := onDisconnectHandler w;
     promises := promises w; next := next w; txs := txs w; now := now w;
     effects := effects w |}.

Definition set_ping (b : bool) (w : World) : World :=
  {| ledger := ledger w; connection := connection w;
     disconnection := disconnection w;
     ping := b; isPolling := isPolling w;
     onConnectHandler := onConnectHandler w;
     onDisconnectHandler := onDisconnectHandler w;
     promises := promises w; next := next w; txs := txs w; now := now w;
     effects := effects w |}.

Definition set_isPolling (b : bool) (w : World) : World :=
  {| ledger := ledger w; connection := connection w;
     disconnection := disconnection w;
     ping := ping w; isPolling := b;
     onConnectHandler := onConnectHandler w;
     onDisconnectHandler := onDisconnectHandler w;
     promises := promises w; next := next w; txs := txs w; now := now w;
     effects := effects w |}.

Definition set_promises (ps : gmap Pid Promise) (w : World) : World :=
  {| ledger := ledger w; connection := connection w;
     disconnection := disconnection w;
     ping := ping w; isPolling := isPolling w;
     onConnectHandler := onConnectHandler w;
     onDisconnectHandler := onDisconnectHandler w;
     promises := ps; next := next w; txs := txs w; now := now w;
     effects := effects w |}.

Definition set_next (n : nat) (w : World) : World :=
  {| ledger := ledger w; connection := connection w;
     disconnection := disconnection w;
     ping := ping w; isPolling := isPolling w;
     onConnectHandler := onConnectHandler w;
     onDisconnectHandler := onDisconnectHandler w;
     promises := promises w; next := n; txs := txs w; now := now w;
     effects := effects w |}.

Definition set_txs (m : gmap TxRef Transaction) (w : World) : World :=
  {| ledger := ledger w; connection := connection w;
     disconnection := disconnection w;
     ping := ping w; isPolling := isPolling w;
     onConnectHandler := onConnectHandler w;
     onDisconnectHandler := onDisconnectHandler w;
     promises := promises w; next := next w; txs := m; now := now w;
     effects := effects w |}.

Definition set_now (t : Z) (w : World) : World :=
  {| ledger := ledger w; connection := connection w;
     disconnection := disconnection w;
     ping := ping w; isPolling := isPolling w;
     onConnectHandler := onConnectHandler w;
     onDisconnectHandler := onDisconnectHandler w;
     promises := promises w; next := next w; txs := txs w; now := t;
     effects := effects w |}.

Definition set_effects (fx : list Effect) (w : World) : World :=
  {| ledger := ledger w; connection := connection w;
     disconnection := disconnection w;
     ping := ping w; isPolling := isPolling w;
     onConnectHandler := onConnectHandler w;
     onDisconnectHandler := onDisconnectHandler w;
     promises := promises w; next := next w; txs := txs w; now := now w;
     effects := fx |}.

Definition set_onConnectHandler (b : bool) (w : World) : World :=
  {| ledger := ledger w; connection := connection w;
     disconnection := disconnection w;
     ping := ping w; isPolling := isPolling w;
     onConnectHandler := b;
     onDisconnectHandler := onDisconnectHandler w;
     promises := promises w; next := next w; txs := txs w; now := now w;
     effects := effects w |}.

Definition set_onDisconnectHandler (b : bool) (w : World) : World :=
  {| ledger := ledger w; connection := connection w;
     disconnection := disconnection w;
     ping := ping w; isPolling := isPolling w;
     onConnectHandler := onConnectHandler w;
     onDisconnectHandler := b;
     promises := promises w; next := next w; txs := txs w; now := now w;
     effects := effects w |}.

Definition suspend (p : Pid) (t : Task) (w : World) : World :=
  set_promises (<[p := Pending t]> (promises w)) w.

Definition settle (p : Pid) (r : Result Value) (w : World) : World :=
  set_promises (<[p := Settled r]> (promises w)) w.

Definition emit (e : Effect) (w : World) : World :=
  set_effects (effects w ++ [e]) w.

Definition fresh (w : World) : nat * World := (next w, set_next (S (next w)) w).

Definition set_publicKey (v : option string) (l : Ledger) : Ledger :=
  {| publicKey := v; path := path l; account := account l; index := index l;
     internalFlag := internalFlag l; version := version l;
     multiOpsEnabled := multiOpsEnabled l; transport := transport l;
     application := application l; error := error l |}.

Definition set_path (v : option string) (l : Ledger) : Ledger :=
  {| publicKey := publicKey l; path := v; account := account l;
     index := index l; internalFlag := internalFlag l; version := version l;
     multiOpsEnabled := multiOpsEnabled l; transport := transport l;
     application := application l; error := error l |}.

Definition set_account (v : option Z) (l : Ledger) : Ledger :=
  {| publicKey := publicKey l; path := path l; account := v;
     index := index l; internalFlag := internalFlag l; version := version l;
     multiOpsEnabled := multiOpsEnabled l; transport := transport l;
     application := application l; error := error l |}.

Definition set_index (v : option Z) (l : Ledger) : Ledger :=
  {| publicKey := publicKey l; path := path l; account := account l;
     index := v; internalFlag := internalFlag l; version := version l;
     multiOpsEnabled := multiOpsEnabled l; transport := transport l;
     application := application l; error := error l |}.

Definition set_internalFlag (v : option bool) (l : Ledger) : Ledger :=
  {| publicKey := publicKey l; path := path l; account := account l;
     index := index l; internalFlag := v; version := version l;
     multiOpsEnabled := multiOpsEnabled l; transport := transport l;
     application := application l; error := error l |}.

Definition set_version (v : option string) (l : Ledger) : Ledger :=
  {| publicKey := publicKey l; path := path l; account := account l;
     index := index l; internalFlag := internalFlag l; version := v;
     multiOpsEnabled := multiOpsEnabled l; transport := transport l;
     application := application l; error := error l |}.

Definition set_multiOpsEnabled (v : option bool) (l : Ledger) : Ledger :=
  {| publicKey := publicKey l; path := path l; account := account l;
     index := index l; internalFlag := internalFlag l; version := version l;
     multiOpsEnabled := v; transport := transport l;
     application := application l; error := error l |}.

Definition set_transport (v : option Transport) (l : Ledger) : Ledger :=
  {| publicKey := publicKey l; path := path l; account := account l;
     index := index l; internalFlag := internalFlag l; version := version l;
     multiOpsEnabled := multiOpsEnabled l; transport := v;
     application := application l; error := error l |}.

Definition set_application (v : option App) (l : Ledger) : Ledger :=
  {| publicKey := publicKey l; path := path l; account := account l;
     index := index l; internalFlag := internalFlag l; version := version l;
     multiOpsEnabled := multiOpsEnabled l; transport := transport l;
     application := v; error := error l |}.

Definition set_error (v : option JsError) (l : Ledger) : Ledger :=
  {| publicKey := publicKey l; path := path l; account := account l;
     index := index l; internalFlag := internalFlag l; version := version l;
     multiOpsEnabled := multiOpsEnabled l; transport := transport l;
     application := application l; error := v |}.

Definition assign (f : Ledger -> Ledger) (w : World) : World :=
  set_ledger (f (ledger w)) w.

(** ** The synchronous functions *)

(** Truthiness of a number that may be [undefined]. *)
Definition number_truthy (v : option Z) : bool :=
  match v with
  | Some n => negb (n =? 0)%Z
  | None => false
  end.

(** [makePath] (lines 88-94). *)
Definition makePath (account : Z) (index : option Z)
    (internalFlag : option bool) : string :=
  let path := "44'/148'/" +:+ pretty account +:+ "'" in
  let path :=
    if number_truthy index || default false internalFlag
    then path +:+ (if default false internalFlag then "/1'" else "/0'")
    else path in
  if number_truthy index
  then path +:+ "/" +:+ pretty (default 0%Z index) +:+ "'"
  else path.

(** [reset] (lines 190-195). *)
Definition reset (w : World) : World :=
  let w := set_connection MNull w in
  let w := assign (set_transport None) w in
  let w := assign (set_application None) w in
  let w := assign (set_path None) w in
  let w := assign (set_account None) w in
  let w := assign (set_index None) w in
  let w := assign (set_internalFlag None) w in
  let w := assign (set_version None) w in
  let w := assign (set_publicKey None) w in
  assign (set_multiOpsEnabled None) w.

(** [onDisconnect] (lines 142-146). *)
Definition onDisconnect (w : World) : World :=
  let w := emit (FxLog "Ledger disconnected") w in
  let w := reset w in
  if onDisconnectHandler w then emit FxOnDisconnect w else w.

Definition pollingDelay : Z := 1000.

(** Lines 59-63: the arguments of [ledger.connect] when it is called
    without an account are those of the session, or zero. *)
Definition remembered (l : Ledger) : Z * option Z * option bool :=
  (default 0%Z (account l),
   Some (default 0%Z (index l)),
   Some (default false (internalFlag l))).

(** ** The asynchronous functions *)

Section Program.

Variable isNode : bool.

(** The StellarSdk side of [sign]:
    [Sdk.Keypair.fromPublicKey(publicKey).signatureHint()], which throws on
    a value that is no public key. *)
Variable signatureHint : option string -> Result Bytes.

(** [refreshAppConfiguration] (lines 167-175), from the call to its
    [await]; reading [getAppConfiguration] of an unset application throws
    inside the [try], and that error has no [currentLock]. *)
Definition refreshAppConfiguration (f : Pid) (w : World) : World :=
  match application (ledger w) with
  | Some a =>
      suspend f refresh_at_getAppConfiguration
        (emit (FxGetAppConfiguration a) w)
  | None => settle f (Ok VUndefined) w
  end.

(** [refreshAppConfiguration] resumed with the device's answer. *)
Definition refresh_after_getAppConfiguration
    (f : Pid) (r : Result (string * bool)) (w : World) : World :=
  match r with
  | Ok (v, m) =>
      let w := assign (set_version (Some v)) w in
      let w := assign (set_multiOpsEnabled (Some m)) w in
      let w := set_ping true w in
      settle f (Ok VUndefined) w
  | Err error =>
      let w :=
        if decide (error_currentLock error = Some "signTransaction")
        then set_ping true w else w in
      settle f (Ok VUndefined) w
  end.

(** [ledger.disconnect] (lines 181-188).  [disconnection] is the promise
    of [close()] itself. *)
Definition ledger_disconnect (w : World) : Pid * World :=
  let '(r, w) := fresh w in
  let w := set_isPolling false w in
  match transport (ledger w) with
  | Some t =>
      let '(d, w) := fresh w in
      let w := suspend d (transport_close t) (emit (FxClose t) w) in
      let w := set_disconnection (Some d) w in
      let '(h, w) := fresh w in
      let w := suspend h (then_onDisconnect d) w in
      (r, suspend r (disconnect_return d) w)
  | None => (r, settle r (Ok VUndefined) w)
  end.

(** [polling] (lines 153-165): the loop test and one cycle up to its
    [await timeout(pollingDelay)]. *)
Definition polling_loop (p : Pid) (thisApplication : option App) (w : World)
  : World :=
  if bool_decide (thisApplication = application (ledger w)) then
    let w := set_ping false w in
    let '(f, w) := fresh w in
    let w := refreshAppConfiguration f w in
    suspend p (polling_at_timeout thisApplication (now w + pollingDelay)%Z)
      (emit (FxSetTimeout pollingDelay) w)
  else settle p (Ok VUndefined) (emit (FxLog "Stop polling") w).

Definition polling (p : Pid) (w : World) : World :=
  let w := emit (FxLog "Start polling") w in
  let w := set_isPolling true w in
  let thisApplication := application (ledger w) in
  polling_loop p thisApplication w.

(** [polling] resumed when its timer fires (line 162). *)
Definition polling_after_timeout
    (p : Pid) (thisApplication : option App) (w : World) : World :=
  if negb (ping w)
  then let '(q, w) := ledger_disconnect w in
       suspend p (polling_at_disconnect thisApplication q) w
  else polling_loop p thisApplication w.

(** [onConnect] (lines 129-134), from the call to its [await]. *)
Definition onConnect (o : Pid) (w : World) : World :=
  let w := emit (FxLog "Ledger connected") w in
  let '(f, w) := fresh w in
  let w := refreshAppConfiguration f w in
  suspend o (onConnect_at_refresh f) w.

(** [onConnect] resumed (lines 132-133). *)
Definition onConnect_after_refresh (o : Pid) (w : World) : World :=
  let w := if onConnectHandler w then emit FxOnConnect w else w in
  let w :=
    if negb (isPolling w)
    then let '(l, w) := fresh w in polling l w
    else w in
  settle o (Ok VUndefined) w.

Definition new_StellarApp (t : Transport) (w : World) : App * World :=
  let '(id, w) := fresh w in (StellarApp id t, w).

(** Lines 106-110, entered with [ledger.transport] holding [t]. *)
Definition connect_getPublicKey (p : Pid) (t : Transport) (w : World)
  : World :=
  let '(a, w) :=
    match application (ledger w) with
    | Some a => if isNode then new_StellarApp t w else (a, w)
    | None => new_StellarApp t w
    end in
  let w := assign (set_application (Some a)) w in
  suspend p connect_at_getPublicKey
    (emit (FxGetPublicKey a (path (ledger w))) w).

(** Lines 101-105: the loop test and the start of an iteration. *)
Definition connect_loop (p : Pid) (w : World) : World :=
  if marker_truthy (connection w) && negb (truthy (publicKey (ledger w))) then
    match transport (ledger w) with
    | Some t =>
        if isNode
        then suspend p connect_at_create (emit FxTransportCreate w)
        else connect_getPublicKey p t w
    | None => suspend p connect_at_create (emit FxTransportCreate w)
    end
  else settle p (Ok VUndefined) w.

(** Lines 112-117: the [catch] block. *)
Definition connect_catch (p : Pid) (error : JsError) (w : World) : World :=
  let w := assign (set_error (Some error)) w in
  if decide (error_id error = Some "U2FNotSupported")
  then settle p (Err error) w
  else suspend p (connect_at_timeout (now w + 1000)%Z)
         (emit (FxSetTimeout 1000) w).

(** [connect] (lines 96-119), from the call to its first [await]. *)
Definition connect (p : Pid) (w : World) : World :=
  let w := emit (FxLog "Attempting ledger connection...") w in
  let w := assign (set_error None) w in
  let w := set_connection MX w in
  connect_loop p w.

Definition connect_after_create (p : Pid) (r : Result Transport) (w : World)
  : World :=
  match r with
  | Ok t =>
      let w := assign (set_transport (Some t)) w in
      connect_getPublicKey p t w
  | Err error => connect_catch p error w
  end.

Definition connect_after_getPublicKey (p : Pid) (r : Result string)
    (w : World) : World :=
  match r with
  | Ok pk =>
      let w := assign (set_publicKey (Some pk)) w in
      let '(o, w) := fresh w in
      let w := onConnect o w in
      connect_loop p w
  | Err error => connect_catch p error w
  end.

Definition connect_after_timeout (p : Pid) (w : World) : World :=
  connect_loop p w.

(** [ledger.connect] (lines 58-86) from line 73 on. *)
Definition ledger_connect_body
    (r : Pid) (target : string) (account : Z) (index : option Z)
    (internalFlag : option bool) (w : World) : World :=
  let w :=
    if negb (bool_decide (path (ledger w) = Some target)) then
      let w := set_connection MNull w in
      let w := assign (set_publicKey None) w in
      let w := assign (set_path (Some target)) w in
      let w := assign (set_account (Some account)) w in
      let w := assign (set_index (Some (default 0%Z index))) w in
      assign (set_internalFlag (Some (default false internalFlag))) w
    else w in
  let w :=
    if negb (marker_truthy (connection w))
    then let '(c, w) := fresh w in set_connection (MPromise c) (connect c w)
    else w in
  match connection w with
  | MPromise c => suspend r (ledger_connect_return c) w
  | MX => settle r (Ok VX) w
  | MNull => settle r (Ok VUndefined) w
  end.

(** [ledger.connect(account, index, internalFlag)], from the call to its
    first [await] or to its [return]. *)
Definition ledger_connect
    (account : option Z) (index : option Z) (internalFlag : option bool)
    (w : World) : Pid * World :=
  let '(r, w) := fresh w in
  let '(account, index, internalFlag) :=
    match account with
    | None => remembered (ledger w)
    | Some a => (a, index, internalFlag)
    end in
  let target := makePath account index internalFlag in
  match disconnection w with
  | Some d =>
      (r, suspend r
            (ledger_connect_at_disconnection target account index
               internalFlag d) w)
  | None => (r, ledger_connect_body r target account index internalFlag w)
  end.

(** [ledger.sign] (lines 201-216), from the call to its [await]. *)
Definition ledger_sign (transaction : TxRef) (w : World) : Pid * World :=
  let '(r, w) := fresh w in
  if negb (truthy (publicKey (ledger w)))
  then (r, settle r (Err NotConnectedError) w)
  else
    let app := application (ledger w) in
    match txs w !! transaction, app with
    | Some tx, Some a =>
        (r, suspend r (sign_at_signTransaction transaction)
              (emit (FxSignTransaction a (path (ledger w)) (signatureBase tx))
                 w))
    | _, _ => (r, settle r (Err TypeError) w)
    end.

(** [ledger.sign] resumed with the device's answer (lines 208-215). *)
Definition sign_after_signTransaction
    (r : Pid) (transaction : TxRef) (result : Result Bytes) (w : World)
  : World :=
  match result with
  | Ok sig =>
      match signatureHint (publicKey (ledger w)) with
      | Ok hint =>
          let decorated := {| hint := hint; signature := sig |} in
          match txs w !! transaction with
          | Some tx =>
              settle r (Ok (VTx transaction))
                (set_txs (<[transaction := push decorated tx]> (txs w)) w)
          | None => settle r (Err TypeError) w
          end
      | Err e => settle r (Err e) w
      end
  | Err e => settle r (Err e) w
  end.

(** A call suspended at [await q], resumed with the outcome of [q]. *)
Definition wake (p : Pid) (t : Task) (outcome : Result Value) (w : World)
  : option World :=
  match t, outcome with
  | ledger_connect_at_disconnection target account index internalFlag _,
    Ok _ =>
      let w := set_disconnection None w in
      Some (ledger_connect_body p target account index internalFlag w)
  | ledger_connect_at_disconnection _ _ _ _ _, Err e =>
      Some (settle p (Err e) w)
  | ledger_connect_return _, _ => Some (settle p outcome w)
  | onConnect_at_refresh _, Ok _ => Some (onConnect_after_refresh p w)
  | onConnect_at_refresh _, Err e => Some (settle p (Err e) w)
  | polling_at_disconnect thisApplication _, Ok _ =>
      Some (polling_loop p thisApplication w)
  | polling_at_disconnect _ _, Err e => Some (settle p (Err e) w)
  | disconnect_return _, _ => Some (settle p outcome w)
  | then_onDisconnect _, Ok _ =>
      Some (settle p (Ok VUndefined) (onDisconnect w))
  | then_onDisconnect _, Err e => Some (settle p (Err e) w)
  | _, _ => None
  end.

Definition awaited (t : Task) : option Pid :=
  match t with
  | ledger_connect_at_disconnection _ _ _ _ d => Some d
  | ledger_connect_return c => Some c
  | onConnect_at_refresh f => Some f
  | polling_at_disconnect _ q => Some q
  | disconnect_return d => Some d
  | then_onDisconnect d => Some d
  | _ => None
  end.

(** ** The system *)

Inductive Event : Type :=
| SetOnConnect (isFunction : bool)
| SetOnDisconnect (isFunction : bool)
| CallConnect (account index : option Z) (internalFlag : option bool)
| CallSign (transaction : TxRef)
| CallDisconnect
| TransportCreated (p : Pid) (r : Result Transport)
| GotPublicKey (p : Pid) (r : Result string)
| GotAppConfiguration (p : Pid) (r : Result (string * bool))
| Signed (p : Pid) (r : Result Bytes)
| Closed (p : Pid) (r : Result unit)
| TimerFired (p : Pid)
| Wake (p : Pid)
| Tick (ms : Z).

Definition step (ev : Event) (w : World) : option World :=
  match ev with
  | SetOnConnect b => Some (set_onConnectHandler b w)
  | SetOnDisconnect b => Some (set_onDisconnectHandler b w)
  | CallConnect account index internalFlag =>
      Some (snd (ledger_connect account index internalFlag w))
  | CallSign transaction => Some (snd (ledger_sign transaction w))
  | CallDisconnect => Some (snd (ledger_disconnect w))
  | TransportCreated p r =>
      match promises w !! p with
      | Some (Pending connect_at_create) => Some (connect_after_create p r w)
      | _ => None
      end
  | GotPublicKey p r =>
      match promises w !! p with
      | Some (Pending connect_at_getPublicKey) =>
          Some (connect_after_getPublicKey p r w)
      | _ => None
      end
  | GotAppConfiguration p r =>
      match promises w !! p with
      | Some (Pending refresh_at_getAppConfiguration) =>
          Some (refresh_after_getAppConfiguration p r w)
      | _ => None
      end
  | Signed p r =>
      match promises w !! p with
      | Some (Pending (sign_at_signTransaction transaction)) =>
          Some (sign_after_signTransaction p transaction r w)
      | _ => None
      end
  | Closed p r =>
      match promises w !! p with
      | Some (Pending (transport_close _)) =>
          Some (settle p
                  (match r with Ok _ => Ok VUndefined | Err e => Err e end) w)
      | _ => None
      end
  | TimerFired p =>
      match promises w !! p with
      | Some (Pending (connect_at_timeout deadline)) =>
          if (deadline <=? now w)%Z then Some (connect_after_timeout p w)
          else None
      | Some (Pending (polling_at_timeout thisApplication deadline)) =>
          if (deadline <=? now w)%Z
          then Some (polling_after_timeout p thisApplication w)
          else None
      | _ => None
      end
  | Wake p =>
      match promises w !! p with
      | Some (Pending t) =>
          match awaited t with
          | Some q =>
              match promises w !! q with
              | Some (Settled outcome) => wake p t outcome w
              | _ => None
              end
          | None => None
          end
      | _ => None
      end
  | Tick ms => if (0 <=? ms)%Z then Some (set_now (now w + ms)%Z w) else None
  end.

Fixpoint run (evs : list Event) (w : World) : option World :=
  match evs with
  | [] => Some w
  | ev :: evs =>
      match step ev w with
      | Some w => run evs w
      | None => None
      end
  end.

End Program.

(** The module as loaded, at time [t], holding the transaction objects
    [store]. *)
Definition init (t : Z) (store : gmap TxRef Transaction) : World :=
  {| ledger := {| publicKey := None; path := None; account := None;
                  index := None; internalFlag := None; version := None;
                  multiOpsEnabled := None; transport := None;
                  application := None; error := None |};
     connection := MNull; disconnection := None;
     ping := false; isPolling := false;
     onConnectHandler := false; onDisconnectHandler := false;
     promises := ∅; next := 0; txs := store; now := t; effects := [] |}.

End Legacy.

(** * Vocabulary of the properties, and sample data

    The steps of the handshake as events, and concrete collaborators,
    worlds and runs on which the properties below are exercised. *)







(** A failure of the kind a device that is not plugged in produces, and
    the failure of a browser without U2F. *)
Definition transient : JsError := Thrown (Some "NoDevice") None.

Definition sample_tx : Transaction :=
  {| signatureBase := [Byte.x01; Byte.x02]; signatures := [] |}.

(** A small StellarSdk to run the signing functions on: the base64 text of
    a signature is read back to its bytes, and every string is a key. *)
Definition model_toBase64 (b : Bytes) : string := string_of_list_byte b.

Definition model_hintOf (pk : string) : Bytes := list_byte_of_string pk.

Definition model_addSignature
    (pk : option string) (s : string) (tx : Transaction)
  : Result Transaction :=
  match pk with
  | Some k =>
      Ok (push {| hint := model_hintOf k; signature := list_byte_of_string s |}
            tx)
  | None => Err (Error "Invalid signature")
  end.

Definition model_signatureHint (pk : option string) : Result Bytes :=
  match pk with
  | Some k => Ok (model_hintOf k)
  | None => Err TypeError
  end.

(** Worlds with a session established on transport 7. *)
Definition index_session : Index.World :=
  {| Index.ledger :=
       {| Index.publicKey := Some "GA"; Index.path := Some "44'/148'/0'";
          Index.version := Some "3.0"; Index.multiOpsEnabled := Some false;
          Index.transport := Some 7;
          Index.application := Some (Index.StellarApp 7) |};
     Index.connection := Index.MPromise 1; Index.disconnection := None;
     Index.onConnectHandler := false; Index.onDisconnectHandler := false;
     Index.promises :=
       {[ 0 := Index.Settled (Ok Index.VUndefined);
          1 := Index.Settled (Ok Index.VUndefined) ]};
     Index.next := 2; Index.txs := {[ 0 := sample_tx ]}; Index.now := 0;
     Index.effects := [] |}.

Definition legacy_session : Legacy.World :=
  {| Legacy.ledger :=
       {| Legacy.publicKey := Some "GA"; Legacy.path := Some "44'/148'/0'";
          Legacy.account := Some 0%Z; Legacy.index := Some 0%Z;
          Legacy.internalFlag := Some false;
          Legacy.version := Some "3.0"; Legacy.multiOpsEnabled := Some false;
          Legacy.transport := Some 7;
          Legacy.application := Some (Legacy.StellarApp 2 7);
          Legacy.error := None |};
     Legacy.connection := Legacy.MPromise 1; Legacy.disconnection := None;
     Legacy.ping := true; Legacy.isPolling := false;
     Legacy.onConnectHandler := false; Legacy.onDisconnectHandler := false;
     Legacy.promises :=
       {[ 0 := Legacy.Settled (Ok Legacy.VUndefined);
          1 := Legacy.Settled (Ok Legacy.VUndefined) ]};
     Legacy.next := 3; Legacy.txs := {[ 0 := sample_tx ]}; Legacy.now := 0;
     Legacy.effects := [] |}.


(** Worlds in which the first [connect()] has just been called: attempt 1
    waits for [Transport.create()]. *)
Definition index_connecting : Index.World :=
  snd (Index.ledger_connect false None (Index.init 0 {[ 0 := sample_tx ]})).

Definition legacy_connecting : Legacy.World :=
  snd (Legacy.ledger_connect false (Some 0%Z) None None
         (Legacy.init 0 {[ 0 := sample_tx ]})).





(** ** Invariants of [src/index.js] *)

(** Every promise in the table was allocated: it lies below [next]. *)
Definition index_wf (w : Index.World) : Prop :=
  forall p, is_Some (Index.promises w !! p) -> (p < Index.next w)%nat.

(** [d] is the promise of a [closeTransport] call: still waiting for
    [close()], or resolved. *)
Definition index_closing (w : Index.World) (d : Pid) : Prop :=
  (exists t,
      Index.promises w !! d
      = Some (Index.Pending (Index.closeTransport_at_close t)))
  \/ Index.promises w !! d = Some (Index.Settled (Ok Index.VUndefined)).

(** The module variable [disconnection], and every promise a
    [disconnect()] call waits for, is the promise of a [closeTransport]
    call. *)
Definition index_teardown_inv (w : Index.World) : Prop :=
  index_wf w
  /\ (forall d, Index.disconnection w = Some d -> index_closing w d)
  /\ (forall r d,
        Index.promises w !! r
        = Some (Index.Pending (Index.disconnect_at_disconnection d)) ->
        index_closing w d).

(** The promise of a [disconnect()] call: resolved, or waiting for a
    [closeTransport] call. *)
Definition index_disconnecting (w : Index.World) (r : Pid) : Prop :=
  Index.promises w !! r = Some (Index.Settled (Ok Index.VUndefined))
  \/ exists d,
       Index.promises w !! r
       = Some (Index.Pending (Index.disconnect_at_disconnection d)).

(** The program points from which a public key can still be stored: those
    of [connect], and a [ledger.connect] call that waits for a
    disconnection before it starts an attempt. *)
Definition index_attempting (t : Index.Task) : bool :=
  match t with
  | Index.connect_at_create _ _
  | Index.connect_at_getPublicKey _ _
  | Index.connect_at_getAppConfiguration _ _
  | Index.ledger_connect_at_disconnection _ _ => true
  | _ => false
  end.

Definition index_no_attempt (w : Index.World) : Prop :=
  forall p t,
    Index.promises w !! p = Some (Index.Pending t) ->
    index_attempting t = false.

Definition index_is_connect_call (ev : Index.Event) : bool :=
  match ev with Index.CallConnect _ => true | _ => false end.

(** The session with every property null. *)
Definition index_blank : Index.Ledger :=
  {| Index.publicKey := None; Index.path := None; Index.version := None;
     Index.multiOpsEnabled := None; Index.transport := None;
     Index.application := None |}.

(** [connect()] is cancelled by [disconnect()] before its transport is
    open; the transport and the public key arrive afterwards, and [sign]
    is called.  Promises: 0 = [connect()], 1 = its attempt, 2 =
    [disconnect()], 3 = [sign]. *)
Definition index_cancelled_run : list Index.Event :=
  [Index.CallConnect None;
   Index.CallDisconnect;
   Index.TransportCreated 1 (Ok 7);
   Index.GotPublicKey 1 (Ok "GA");
   Index.CallSign 0].

(** [connect()] has opened transport 7 and waits for the public key;
    then, after [disconnect()] (promise 2, its [closeTransport] 3), the
    transport's [close()] fails and the call is resumed. *)
Definition index_open_run : list Index.Event :=
  [Index.CallConnect None; Index.TransportCreated 1 (Ok 7)].

Definition index_close_fails_run : list Index.Event :=
  [Index.Closed 3 (Err transient); Index.Wake 2].

(** After [disconnect()] on [index_session] (promise 2, [closeTransport]
    3, the [then] reaction 4): [close()] fails, the reaction and the call
    are resumed. *)
Definition index_after_disconnect_run : list Index.Event :=
  [Index.Closed 3 (Err transient); Index.Wake 4; Index.Wake 2].

(** ** The liveness monitor *)

(** A session of the earlier revision is established and monitored (loop
    5, keyed to application object 2, timer due at 1000 ms), closed by
    [disconnect()] at 100 ms and established again; its monitor (loop 15,
    keyed to application object 12) starts at 900 ms. *)
Definition legacy_reconnect_run : list Legacy.Event :=
  [Legacy.CallConnect (Some 0%Z) None None;
   Legacy.TransportCreated 1 (Ok 7);
   Legacy.GotPublicKey 1 (Ok "GA");
   Legacy.GotAppConfiguration 4 (Ok ("3.0", false));
   Legacy.Wake 3;
   Legacy.GotAppConfiguration 6 (Ok ("3.0", false));
   Legacy.Tick 100;
   Legacy.CallDisconnect;
   Legacy.Closed 8 (Ok tt);
   Legacy.Wake 9;
   Legacy.Wake 7;
   Legacy.Tick 100;
   Legacy.CallConnect (Some 0%Z) None None;
   Legacy.Wake 10;
   Legacy.TransportCreated 11 (Ok 8);
   Legacy.GotPublicKey 11 (Ok "GA");
   Legacy.Tick 700;
   Legacy.GotAppConfiguration 14 (Ok ("3.0", false));
   Legacy.Wake 13].

(** At 1000 ms the timer of the first loop fires. *)
Definition legacy_stale_timer_run : list Legacy.Event :=
  legacy_reconnect_run ++ [Legacy.Tick 100; Legacy.TimerFired 5].

Definition index_open_world : Index.World :=
  default (Index.init 0 ∅)
    (Index.run false model_toBase64 model_addSignature index_open_run
       (Index.init 0 ∅)).

Definition index_closed_world : Index.World :=
  default index_open_world
    (Index.run false model_toBase64 model_addSignature index_close_fails_run
       (snd (Index.ledger_disconnect index_open_world))).

Definition index_torn_down_world : Index.World :=
  default index_session
    (Index.run false model_toBase64 model_addSignature
       index_after_disconnect_run (snd (Index.ledger_disconnect index_session))).

(** A session whose application handle is gone while a public key is
    stored, in either revision. *)
Definition index_headless : Index.World :=
  Index.assign (Index.set_application None) index_session.

Definition legacy_headless : Legacy.World :=
  Legacy.assign (Legacy.set_application None) legacy_session.

(** [disconnect()] has been called on [index_session]: promise 2 is the
    call, 3 its [closeTransport], 4 the [then] reaction. *)
Definition index_disconnecting_world : Index.World :=
  snd (Index.ledger_disconnect index_session).


(** The session a completed handshake leaves. *)
Definition index_established
    (path : string) (t : Transport) (pk v : string) (m : bool)
  : Index.Ledger :=
  {| Index.publicKey := Some pk; Index.path := Some path;
     Index.version := Some v; Index.multiOpsEnabled := Some m;
     Index.transport := Some t;
     Index.application := Some (Index.StellarApp t) |}.

(** The requests and notifications of a handshake on transport [t], after
    [Transport.create()]. *)
Definition index_handshake_tail
    (path : string) (t : Transport) (notify : bool) : list Index.Effect :=
  [Index.FxGetPublicKey (Index.StellarApp t) path;
   Index.FxGetAppConfiguration (Index.StellarApp t);
   Index.FxLog "Ledger connected"]
  ++ (if notify then [Index.FxOnConnect] else []).

(** What a teardown on transport [t] puts on record: the [close()]
    request, the failure of [close()] when there is one, and the
    notification. *)
Definition index_teardown_trace
    (t : Transport) (res : Result unit) (notify : bool) : list Index.Effect :=
  [Index.FxClose t]
  ++ (match res with Ok _ => [] | Err e => [Index.FxConsoleError e] end)
  ++ [Index.FxLog "Ledger disconnected"]
  ++ (if notify then [Index.FxOnDisconnect] else []).

(** ** Invariants of the earlier revision *)

(** The stored path, when there is one, is the path of the stored
    account, index and flag; and a [connect] call that waits for a
    disconnection holds the path of its own arguments. *)
Definition legacy_path_inv (v : Legacy.World) : Prop :=
  (forall p,
      Legacy.path (Legacy.ledger v) = Some p ->
      Legacy.makePath
        (default 0%Z (Legacy.account (Legacy.ledger v)))
        (Some (default 0%Z (Legacy.index (Legacy.ledger v))))
        (Some (default false (Legacy.internalFlag (Legacy.ledger v))))
      = p)
  /\ (forall r target a i f d,
        Legacy.promises v !! r
        = Some (Legacy.Pending
                  (Legacy.ledger_connect_at_disconnection target a i f d)) ->
        target = Legacy.makePath a i f).

(** The session of the earlier revision with nothing stored but the last
    failure. *)
Definition legacy_blank (error : option JsError) : Legacy.Ledger :=
  {| Legacy.publicKey := None; Legacy.path := None; Legacy.account := None;
     Legacy.index := None; Legacy.internalFlag := None;
     Legacy.version := None; Legacy.multiOpsEnabled := None;
     Legacy.transport := None; Legacy.application := None;
     Legacy.error := error |}.

(** The session when the attempt of the earlier revision resolves: the
    configuration is not read yet. *)
Definition legacy_established
    (a : Z) (i : option Z) (f : option bool) (app : nat) (t : Transport)
    (pk : string) : Legacy.Ledger :=
  {| Legacy.publicKey := Some pk;
     Legacy.path := Some (Legacy.makePath a i f);
     Legacy.account := Some a;
     Legacy.index := Some (default 0%Z i);
     Legacy.internalFlag := Some (default false f);
     Legacy.version := None; Legacy.multiOpsEnabled := None;
     Legacy.transport := Some t;
     Legacy.application := Some (Legacy.StellarApp app t);
     Legacy.error := None |}.

(** What the monitor puts on record when it starts a cycle. *)
Definition legacy_cycle_trace (app : option Legacy.App)
  : list Legacy.Effect :=
  match app with
  | Some a => [Legacy.FxGetAppConfiguration a]
  | None => []
  end ++ [Legacy.FxSetTimeout Legacy.pollingDelay].

(** The failure of a device that is busy signing. *)
Definition busy_signing : JsError := Thrown None (Some "signTransaction").

(** [legacy_session] while its monitor (promise 5) waits for its timer,
    with the device heard from or not. *)
Definition legacy_monitored (ping : bool) : Legacy.World :=
  Legacy.suspend 5
    (Legacy.polling_at_timeout (Some (Legacy.StellarApp 2 7)) 1000)
    (Legacy.set_ping ping
       (Legacy.set_isPolling true
          (Legacy.set_now 1000 (Legacy.set_next 6 legacy_session)))).

(** [legacy_session] with a configuration refresh (promise 4) under way. *)
Definition legacy_refreshing : Legacy.World :=
  Legacy.suspend 4 Legacy.refresh_at_getAppConfiguration
    (Legacy.set_ping false (Legacy.set_next 5 legacy_session)).

(** [legacy_session] right after its public key was read: [onConnect]
    (promise 3) has its refresh (promise 4) answered. *)
Definition legacy_connected : Legacy.World :=
  Legacy.suspend 3 (Legacy.onConnect_at_refresh 4)
    (Legacy.settle 4 (Ok Legacy.VUndefined)
       (Legacy.set_next 5 legacy_session)).
(** * Properties *)

(** Case analysis along the branches of a function of the model. *)
Ltac propagate :=
  repeat match goal with
         | H : ?x = ?v, H' : context [?x] |- _ =>
             lazymatch x with
             | context [v] => fail
             | _ => idtac
             end;
             lazymatch type of H' with
             | x = v => fail
             | _ => rewrite H in H'; cbn in H'
             end
         end.

Ltac crunch :=
  repeat (cbn in *;
          first [ progress simplify_eq
                | case_match
                | case_bool_decide ]);
  propagate; try discriminate; try congruence.

(** Lookups in a promise table after insertions. *)
Ltac split_decide :=
  match goal with
  | H : context [@decide ?P ?inst] |- _ =>
      let d := fresh "d" in
      set (d := @decide P inst) in *; clearbody d; destruct d; simplify_eq
  | |- context [@decide ?P ?inst] =>
      let d := fresh "d" in
      set (d := @decide P inst) in *; clearbody d; destruct d; simplify_eq
  end.

Ltac maps :=
  repeat first
    [ match goal with
      | H : context [ <[_ := _]> _ !! _ ] |- _ =>
          progress (rewrite lookup_insert in H)
      end
    | progress (rewrite lookup_insert)
    | split_decide ].

Ltac unfold_index H :=
  unfold Index.ledger_connect, Index.run_ledger_connect_path,
    Index.ledger_connect_body, Index.connect, Index.ledger_sign,
    Index.ledger_disconnect, Index.closeTransport,
    Index.connect_after_create, Index.connect_after_getPublicKey,
    Index.connect_after_getAppConfiguration, Index.connect_catch,
    Index.connect_loop, Index.connect_getPublicKey,
    Index.sign_after_signTransaction, Index.closeTransport_after_close,
    Index.wake, Index.ledger_connect_body, Index.connect,
    Index.connect_loop, Index.connect_getPublicKey, Index.reset,
    Index.softReset, Index.onConnect, Index.onDisconnect in H.

(** ** The path resolver *)



(** ** Signing *)

(** C6.  [sign(tx)] called while no public key is set (the property is
    null, undefined or empty) is rejected with [NotConnectedError]; the
    transaction objects, the session and the record of requests are as
    before: nothing but the rejected promise of the call is new.  Both
    revisions. *)
Theorem sign_not_connected
    (w : Index.World) (v : Legacy.World) (tx : TxRef) :
  (truthy (Index.publicKey (Index.ledger w)) = false ->
     let '(r, w') := Index.ledger_sign tx w in
     Index.promises w' !! r = Some (Index.Settled (Err NotConnectedError))
     /\ Index.txs w' = Index.txs w
     /\ Index.effects w' = Index.effects w
     /\ Index.ledger w' = Index.ledger w
     /\ (forall k, k <> r -> Index.promises w' !! k = Index.promises w !! k))
  /\ (truthy (Legacy.publicKey (Legacy.ledger v)) = false ->
        let '(r, v') := Legacy.ledger_sign tx v in
        Legacy.promises v' !! r
        = Some (Legacy.Settled (Err NotConnectedError))
        /\ Legacy.txs v' = Legacy.txs v
        /\ Legacy.effects v' = Legacy.effects v
        /\ Legacy.ledger v' = Legacy.ledger v
        /\ (forall k, k <> r ->
              Legacy.promises v' !! k = Legacy.promises v !! k)).
Proof.
  split; intros Hkey.
  - unfold Index.ledger_sign; cbn. rewrite Hkey; cbn.
    repeat split; [apply lookup_insert_eq |].
    intros k Hk. by apply lookup_insert_ne.
  - unfold Legacy.ledger_sign; cbn. rewrite Hkey; cbn.
    repeat split; [apply lookup_insert_eq |].
    intros k Hk. by apply lookup_insert_ne.
Qed.

Lemma sign_not_connected_witness :
  Index.promises (snd (Index.ledger_sign 0 (Index.init 0 {[ 0 := sample_tx ]})))
    !! 0 = Some (Index.Settled (Err NotConnectedError))
  /\ Legacy.promises
       (snd (Legacy.ledger_sign 0 (Legacy.init 0 {[ 0 := sample_tx ]})))
       !! 0 = Some (Legacy.Settled (Err NotConnectedError)).
Proof.
  pose proof (sign_not_connected (Index.init 0 {[ 0 := sample_tx ]})
                (Legacy.init 0 {[ 0 := sample_tx ]}) 0) as [Hi Hl].
  split.
  - apply (Hi eq_refl).
  - apply (Hl eq_refl).
Defined.

Section Signing.

(** The StellarSdk, as [sign] uses it.  [hintOf pk] is the signature hint
    of the key pair of [pk].  In [src/index.js] the signature is attached by
    [Transaction.addSignature]; its contract is that, when it accepts the
    base64 text of [sig] for the key [pk], it has pushed the decorated
    signature of [pk]'s hint and [sig], and nothing else. *)
Variable toBase64 : Bytes -> string.
Variable addSignature :
  option string -> string -> Transaction -> Result Transaction.
Variable hintOf : string -> Bytes.
Variable signatureHint : option string -> Result Bytes.

Hypothesis addSignature_pushes :
  forall pk sig tx tx',
    addSignature (Some pk) (toBase64 sig) tx = Ok tx' ->
    tx' = push {| hint := hintOf pk; signature := sig |} tx.

Hypothesis signatureHint_hintOf :
  forall pk h, signatureHint (Some pk) = Ok h -> h = hintOf pk.


End Signing.




(** ** Connecting *)



(** *** The [catch] block of [connect] *)

Section IndexCatch.

Variable isNode : bool.
Variable toBase64 : Bytes -> string.
Variable addSignature :
  option string -> string -> Transaction -> Result Transaction.




Lemma index_loop_exits w p path :
  Index.marker_truthy (Index.connection w)
  && negb (truthy (Index.publicKey (Index.ledger w))) = false ->
  Index.connect_loop isNode p path w = Index.settle p (Ok Index.VUndefined) w.
Proof. intros H. unfold Index.connect_loop. by rewrite H. Qed.


End IndexCatch.

Section LegacyCatch.

Variable isNode : bool.
Variable signatureHint : option string -> Result Bytes.






End LegacyCatch.







(** *** Sharing the attempt *)








(** ** Disconnecting *)

Ltac unfold_index_goal :=
  unfold Index.ledger_connect, Index.run_ledger_connect_path,
    Index.ledger_connect_body, Index.connect, Index.ledger_sign,
    Index.ledger_disconnect, Index.closeTransport,
    Index.connect_after_create, Index.connect_after_getPublicKey,
    Index.connect_after_getAppConfiguration, Index.connect_catch,
    Index.connect_loop, Index.connect_getPublicKey,
    Index.sign_after_signTransaction, Index.closeTransport_after_close,
    Index.wake, Index.ledger_connect_body, Index.connect,
    Index.connect_loop, Index.connect_getPublicKey, Index.reset,
    Index.softReset, Index.onConnect, Index.onDisconnect.

Section IndexTeardown.

Variable isNode : bool.
Variable toBase64 : Bytes -> string.
Variable addSignature :
  option string -> string -> Transaction -> Result Transaction.

Lemma index_wf_next ev w :
  index_wf w ->
  match Index.step isNode toBase64 addSignature ev w with
  | Some w' => index_wf w' /\ (Index.next w <= Index.next w')%nat
  | None => True
  end.
Proof.
  intros Hwf. unfold index_wf in *.
  destruct ev; cbn; unfold_index_goal.
  all: crunch.
  all: cbn.
  all: try done.
  all: split; [intros q Hq; maps; try lia | try lia].
  all: match goal with
       | H : is_Some (Index.promises _ !! ?q) |- _ =>
           pose proof (Hwf q H); lia
       | H : Index.promises _ !! ?q = Some _ |- _ =>
           pose proof (Hwf q (ex_intro _ _ H)); lia
       end.
Qed.

Lemma index_closing_lt w d :
  index_wf w -> index_closing w d -> (d < Index.next w)%nat.
Proof. intros Hwf [[t H] | H]; apply Hwf; eexists; exact H. Qed.

Lemma index_teardown_next ev w :
  index_teardown_inv w ->
  match Index.step isNode toBase64 addSignature ev w with
  | Some w' => index_teardown_inv w'
  | None => True
  end.
Proof.
  intros Hinv.
  pose proof (index_wf_next ev w (proj1 Hinv)) as Hwf'.
  destruct (Index.step isNode toBase64 addSignature ev w) as [w' |] eqn:Hstep;
    [| done].
  split; [exact (proj1 Hwf') |]. clear Hwf'.
  revert Hstep.
  destruct ev; cbn; unfold_index_goal.
  all: crunch.
  all: cbn.
  all: intros Hstep; simplify_eq; cbn.
  all: destruct Hinv as (Hwf & Hd & Hr).
  all: pose proof (fun d => index_closing_lt _ d Hwf) as Hlt.
  all: split; [ intros d0 Hd0 | intros r0 d0 Hr0 ].
  all: maps.
  all: try (match goal with
            | H : Index.disconnection _ = Some ?d |- index_closing _ ?d =>
                pose proof (Hlt d (Hd d H));
                destruct (Hd d H) as [[? ?]|?]
            | H : Index.promises _ !! ?r
                  = Some (Index.Pending (Index.disconnect_at_disconnection ?d))
              |- index_closing _ ?d =>
                pose proof (Hlt d (Hr r d H));
                destruct (Hr r d H) as [[? ?]|?]
            end).
  all: unfold index_closing; cbn.
  all: maps; try lia; try congruence; eauto.
Qed.

Lemma index_teardown_step ev w w' :
  index_teardown_inv w ->
  Index.step isNode toBase64 addSignature ev w = Some w' ->
  index_teardown_inv w'.
Proof.
  intros Hinv Hstep. pose proof (index_teardown_next ev w Hinv) as H.
  by rewrite Hstep in H.
Qed.

Lemma index_teardown_run evs w w' :
  index_teardown_inv w ->
  Index.run isNode toBase64 addSignature evs w = Some w' ->
  index_teardown_inv w'.
Proof.
  revert w. induction evs as [| ev evs IH]; intros w Hinv Hrun; cbn in Hrun.
  - by simplify_eq.
  - destruct (Index.step isNode toBase64 addSignature ev w) as [w1 |] eqn:Hstep;
      [| done].
    eapply IH; [| exact Hrun]. by eapply index_teardown_step.
Qed.

Lemma index_teardown_init t store : index_teardown_inv (Index.init t store).
Proof.
  split_and!.
  - intros p [x Hx]. cbn in Hx. by rewrite lookup_empty in Hx.
  - intros d Hd. discriminate.
  - intros r d Hr. cbn in Hr. by rewrite lookup_empty in Hr.
Qed.

(** The promise of a [disconnect()] call stays a resolved promise or a
    call waiting for [closeTransport], whatever happens. *)
Lemma index_disconnecting_next ev w r :
  index_teardown_inv w ->
  index_disconnecting w r ->
  match Index.step isNode toBase64 addSignature ev w with
  | Some w' => index_disconnecting w' r
  | None => True
  end.
Proof.
  intros Hinv Htrack.
  assert (Hr : (r < Index.next w)%nat).
  { destruct Hinv as (Hwf & _).
    destruct Htrack as [H | [d H]]; apply Hwf; eexists; exact H. }
  destruct ev; cbn; unfold_index_goal.
  all: crunch.
  all: cbn.
  all: try done.
  all: destruct Hinv as (Hwf & Hd & Hrs).
  all: unfold index_disconnecting in *; cbn.
  all: destruct Htrack as [Htrack | [d' Htrack]].
  all: try (match goal with
            | H : Index.promises _ !! ?r
                  = Some (Index.Pending (Index.disconnect_at_disconnection ?d)),
              H' : Index.promises _ !! ?d = Some (Index.Settled (Err _))
              |- _ =>
                destruct (Hrs r d H) as [[? ?]|?]; congruence
            end).
  all: maps; try lia; try congruence; eauto.
Qed.

Lemma index_disconnecting_run evs w w' r :
  index_teardown_inv w ->
  index_disconnecting w r ->
  Index.run isNode toBase64 addSignature evs w = Some w' ->
  index_disconnecting w' r.
Proof.
  revert w. induction evs as [| ev evs IH]; intros w Hinv Htrack Hrun;
    cbn in Hrun.
  - by simplify_eq.
  - pose proof (index_disconnecting_next ev w r Hinv Htrack) as Hnext.
    destruct (Index.step isNode toBase64 addSignature ev w) as [w1 |] eqn:Hstep;
      [| done].
    eapply IH; [| exact Hnext | exact Hrun].
    by eapply index_teardown_step.
Qed.

Lemma index_disconnect_call w :
  index_teardown_inv w ->
  index_teardown_inv (snd (Index.ledger_disconnect w))
  /\ index_disconnecting (snd (Index.ledger_disconnect w))
       (fst (Index.ledger_disconnect w)).
Proof.
  intros Hinv.
  split; [exact (index_teardown_step Index.CallDisconnect w _ Hinv eq_refl) |].
  unfold Index.ledger_disconnect, Index.closeTransport, Index.reset.
  crunch; cbn.
  all: unfold index_disconnecting; cbn; maps; eauto.
Qed.

End IndexTeardown.

(** X19.  [disconnect()] never rejects.  In every world the module can
    reach, the promise of a [disconnect()] call is, after any further events,
    resolved or still waiting for [closeTransport]; a call that waits is
    resolved as soon as it is resumed; a [close()] that fails resolves
    [closeTransport] all the same, the error logged with [console.error];
    and on the module as loaded the call resolves at once and changes
    nothing. *)
Theorem disconnect_never_rejects
    (isNode : bool) (toBase64 : Bytes -> string)
    (addSignature : option string -> string -> Transaction -> Result Transaction)
    (t : Z) (store : gmap TxRef Transaction)
    (evs evs' : list Index.Event) (w w2 : Index.World) :
  Index.run isNode toBase64 addSignature evs (Index.init t store) = Some w ->
  (Index.run isNode toBase64 addSignature evs'
     (snd (Index.ledger_disconnect w)) = Some w2 ->
   index_disconnecting w2 (fst (Index.ledger_disconnect w))
   /\ forall e,
        Index.promises w2 !! fst (Index.ledger_disconnect w)
        <> Some (Index.Settled (Err e)))
  /\ (forall r d out,
        Index.promises w !! r
        = Some (Index.Pending (Index.disconnect_at_disconnection d)) ->
        Index.promises w !! d = Some (Index.Settled out) ->
        exists w',
          Index.step isNode toBase64 addSignature (Index.Wake r) w = Some w'
          /\ Index.promises w' !! r
             = Some (Index.Settled (Ok Index.VUndefined)))
  /\ (forall d t0 e,
        Index.promises w !! d
        = Some (Index.Pending (Index.closeTransport_at_close t0)) ->
        exists w',
          Index.step isNode toBase64 addSignature (Index.Closed d (Err e)) w
          = Some w'
          /\ Index.promises w' !! d
             = Some (Index.Settled (Ok Index.VUndefined))
          /\ Index.effects w' = Index.effects w ++ [Index.FxConsoleError e])
  /\ Index.ledger_disconnect (Index.init t store)
     = (0, Index.settle 0 (Ok Index.VUndefined)
             (Index.set_next 1 (Index.init t store))).
Proof.
  intros Hrun.
  pose proof (index_teardown_run isNode toBase64 addSignature evs _ _
                (index_teardown_init t store) Hrun) as Hinv.
  split_and!.
  - pose proof (index_disconnect_call isNode toBase64 addSignature w Hinv)
      as Hcall.
    destruct Hcall as [Hinv1 Htrack]. intros Hrun'.
    pose proof (index_disconnecting_run isNode toBase64 addSignature
                  evs' _ w2 _ Hinv1 Htrack Hrun') as Htrack2.
    split; [exact Htrack2 |].
    intros e He. destruct Htrack2 as [H | [d H]]; congruence.
  - intros r d out Hr Hd.
    destruct Hinv as (_ & _ & Hrs).
    destruct (Hrs r d Hr) as [[t0 Hc] | Hc]; [congruence |].
    assert (out = Ok Index.VUndefined) as -> by congruence.
    eexists. cbn. rewrite Hr; cbn. rewrite Hd; cbn.
    split; [reflexivity |]. cbn. apply lookup_insert_eq.
  - intros d t0 e Hd. eexists. cbn. rewrite Hd; cbn.
    split; [reflexivity |]. cbn. by rewrite lookup_insert_eq.
  - reflexivity.
Qed.

Lemma disconnect_never_rejects_witness :
  index_disconnecting index_closed_world 2
  /\ forall e,
       Index.promises index_closed_world !! 2 <> Some (Index.Settled (Err e)).
Proof.
  pose proof (disconnect_never_rejects false model_toBase64 model_addSignature
                0 ∅ index_open_run index_close_fails_run
                index_open_world index_closed_world
                ltac:(vm_compute; reflexivity)) as [H _].
  exact (H ltac:(vm_compute; reflexivity)).
Defined.

Section IndexCleared.

Variable isNode : bool.
Variable toBase64 : Bytes -> string.
Variable addSignature :
  option string -> string -> Transaction -> Result Transaction.

(** While no attempt is in flight and [connect] is not called, the public
    key stays unset. *)
Lemma index_cleared_next ev w :
  index_is_connect_call ev = false ->
  Index.publicKey (Index.ledger w) = None ->
  index_no_attempt w ->
  match Index.step isNode toBase64 addSignature ev w with
  | Some w' => Index.publicKey (Index.ledger w') = None /\ index_no_attempt w'
  | None => True
  end.
Proof.
  intros Hev Hkey Hno. unfold index_no_attempt in *.
  destruct ev; try discriminate; cbn; unfold_index_goal.
  all: crunch.
  all: cbn.
  all: try done.
  all: try (match goal with
            | H : Index.promises _ !! ?p = Some (Index.Pending ?t) |- _ =>
                apply Hno in H; discriminate
            end).
  all: split; [done |]; intros q tq Hq; maps; eauto.
Qed.

Lemma index_cleared_run evs w w' :
  forallb (fun ev => negb (index_is_connect_call ev)) evs = true ->
  Index.publicKey (Index.ledger w) = None ->
  index_no_attempt w ->
  Index.run isNode toBase64 addSignature evs w = Some w' ->
  Index.publicKey (Index.ledger w') = None /\ index_no_attempt w'.
Proof.
  revert w. induction evs as [| ev evs IH]; intros w Hevs Hkey Hno Hrun;
    cbn in Hrun, Hevs.
  - by simplify_eq.
  - apply andb_prop in Hevs as [Hev Hevs]. apply negb_true_iff in Hev.
    pose proof (index_cleared_next ev w Hev Hkey Hno) as Hnext.
    destruct (Index.step isNode toBase64 addSignature ev w) as [w1 |] eqn:Hstep;
      [| done].
    destruct Hnext as [Hkey1 Hno1]. by eapply IH.
Qed.

Lemma index_disconnect_clears w :
  Index.ledger (snd (Index.ledger_disconnect w)) = index_blank
  /\ Index.connection (snd (Index.ledger_disconnect w)) = Index.MNull
  /\ (forall t,
        Index.transport (Index.ledger w) = Some t ->
        exists d,
          Index.disconnection (snd (Index.ledger_disconnect w)) = Some d
          /\ Index.promises (snd (Index.ledger_disconnect w)) !! d
             = Some (Index.Pending (Index.closeTransport_at_close t))
          /\ Index.promises (snd (Index.ledger_disconnect w))
               !! fst (Index.ledger_disconnect w)
             = Some (Index.Pending (Index.disconnect_at_disconnection d))
          /\ Index.effects (snd (Index.ledger_disconnect w))
             = Index.effects w ++ [Index.FxClose t])
  /\ (Index.transport (Index.ledger w) = None ->
      Index.effects (snd (Index.ledger_disconnect w)) = Index.effects w)
  /\ (index_no_attempt w -> index_no_attempt (snd (Index.ledger_disconnect w))).
Proof.
  unfold Index.ledger_disconnect, Index.closeTransport, Index.reset.
  unfold index_no_attempt.
  crunch; cbn.
  all: split_and!; try done.
  all: try (intros t0 Ht0; simplify_eq; eexists; split_and!; [done | | | done];
            maps; try lia; done).
  all: intros Hno q tq Hq; maps; eauto.
Qed.

End IndexCleared.

(** X20.  After [disconnect()], [sign] is rejected until an attempt stores
    a key.  [disconnect()] clears the session (path, public key, transport,
    application, version, capability flag) and the attempt marker in its
    first synchronous block, with [close()] requested, when there was a
    transport, and not yet answered.  When no connect attempt is in flight
    at the call, then, through every sequence of events without a new
    [connect()] call, whether [close()] is pending, succeeds or fails, a
    [sign()] call is rejected with [NotConnectedError] and sends nothing. *)
Theorem disconnect_clears_session
    (isNode : bool) (toBase64 : Bytes -> string)
    (addSignature : option string -> string -> Transaction -> Result Transaction)
    (w w2 : Index.World) (evs : list Index.Event) (tx : TxRef) :
  (Index.ledger (snd (Index.ledger_disconnect w)) = index_blank
   /\ Index.connection (snd (Index.ledger_disconnect w)) = Index.MNull
   /\ (forall t,
         Index.transport (Index.ledger w) = Some t ->
         exists d,
           Index.disconnection (snd (Index.ledger_disconnect w)) = Some d
           /\ Index.promises (snd (Index.ledger_disconnect w)) !! d
              = Some (Index.Pending (Index.closeTransport_at_close t))
           /\ Index.promises (snd (Index.ledger_disconnect w))
                !! fst (Index.ledger_disconnect w)
              = Some (Index.Pending (Index.disconnect_at_disconnection d))
           /\ Index.effects (snd (Index.ledger_disconnect w))
              = Index.effects w ++ [Index.FxClose t]))
  /\ (index_no_attempt w ->
      forallb (fun ev => negb (index_is_connect_call ev)) evs = true ->
      Index.run isNode toBase64 addSignature evs
        (snd (Index.ledger_disconnect w)) = Some w2 ->
      Index.promises (snd (Index.ledger_sign tx w2))
        !! fst (Index.ledger_sign tx w2)
      = Some (Index.Settled (Err NotConnectedError))
      /\ Index.effects (snd (Index.ledger_sign tx w2)) = Index.effects w2
      /\ Index.txs (snd (Index.ledger_sign tx w2)) = Index.txs w2).
Proof.
  pose proof (index_disconnect_clears w)
    as (Hledger & Hconn & Hclose & _ & Hno1).
  split; [done |].
  intros Hno Hevs Hrun.
  destruct (index_cleared_run isNode toBase64 addSignature evs
              (snd (Index.ledger_disconnect w)) w2 Hevs) as [Hkey _];
    [by rewrite Hledger | by apply Hno1 | exact Hrun |].
  unfold Index.ledger_sign; cbn. rewrite Hkey; cbn.
  by rewrite lookup_insert_eq.
Qed.

Lemma index_session_no_attempt : index_no_attempt index_session.
Proof.
  intros p t Hp. cbn in Hp.
  rewrite lookup_insert in Hp. case_decide; [discriminate |].
  rewrite lookup_singleton in Hp. case_decide; discriminate.
Qed.

Lemma disconnect_clears_session_witness :
  Index.promises (snd (Index.ledger_sign 0 index_torn_down_world))
    !! fst (Index.ledger_sign 0 index_torn_down_world)
  = Some (Index.Settled (Err NotConnectedError)).
Proof.
  pose proof (disconnect_clears_session false model_toBase64
                model_addSignature index_session index_torn_down_world
                index_after_disconnect_run 0) as [_ H].
  exact (proj1 (H index_session_no_attempt eq_refl
                  ltac:(vm_compute; reflexivity))).
Defined.

(** * Further properties of [src/index.js] *)

(** ** Resolving accounts *)




(** ** Calling [connect] *)

(** X2.  [connect(n)] with an account number below 1 is rejected at once
    with the resolver's error, before anything else is looked at: a pending
    disconnection is not awaited, no soft reset is made, no attempt is
    started, nothing is logged. *)
Theorem connect_invalid_account
    (isNode : bool) (w : Index.World) (n : Z) :
  (n < 1)%Z ->
  let r := fst (Index.ledger_connect isNode (Some (AccountNumber n)) w) in
  let w' := snd (Index.ledger_connect isNode (Some (AccountNumber n)) w) in
  r = Index.next w
  /\ Index.promises w' !! r = Some (Index.Settled (Err InvalidAccountError))
  /\ (forall k, k <> r -> Index.promises w' !! k = Index.promises w !! k)
  /\ Index.ledger w' = Index.ledger w
  /\ Index.connection w' = Index.connection w
  /\ Index.disconnection w' = Index.disconnection w
  /\ Index.effects w' = Index.effects w.
Proof.
  intros Hn. unfold Index.ledger_connect, Index.run_ledger_connect_path; cbn.
  destruct (Z.ltb_spec n 1) as [_ | ?]; [| lia]. cbn.
  rewrite lookup_insert_eq. split_and!; try done.
  intros k Hk. by apply lookup_insert_ne.
Qed.

Lemma connect_invalid_account_witness :
  Index.promises
    (snd (Index.ledger_connect false (Some (AccountNumber 0)) index_session))
    !! 2
  = Some (Index.Settled (Err InvalidAccountError))
  /\ Index.connection
       (snd (Index.ledger_connect false (Some (AccountNumber 0)) index_session))
     = Index.MPromise 1.
Proof.
  pose proof (connect_invalid_account false index_session 0 ltac:(lia))
    as (_ & H1 & _ & _ & H2 & _).
  split; [exact H1 | exact H2].
Defined.

(** X3.  A [connect()] call made while a disconnection is pending starts
    nothing: it is suspended with the session, the marker and the record of
    requests as they were, and it cannot be resumed before [close()] has
    answered.  Once [close()] has answered, with success or failure, the
    call goes on from its path comparison. *)
Theorem connect_waits_for_disconnection
    (isNode : bool) (toBase64 : Bytes -> string)
    (addSignature : option string -> string -> Transaction -> Result Transaction)
    (w : Index.World) (account : Account) (target : string)
    (d : Pid) (t0 : Transport) :
  Index.ledger_connect_path account = Ok target ->
  Index.disconnection w = Some d ->
  Index.promises w !! d
  = Some (Index.Pending (Index.closeTransport_at_close t0)) ->
  (d < Index.next w)%nat ->
  let r := fst (Index.ledger_connect isNode (Some account) w) in
  let w' := snd (Index.ledger_connect isNode (Some account) w) in
  Index.promises w' !! r
  = Some (Index.Pending (Index.ledger_connect_at_disconnection target d))
  /\ Index.ledger w' = Index.ledger w
  /\ Index.connection w' = Index.connection w
  /\ Index.effects w' = Index.effects w
  /\ Index.step isNode toBase64 addSignature (Index.Wake r) w' = None
  /\ forall res,
       exists w1,
         Index.step isNode toBase64 addSignature (Index.Closed d res) w'
         = Some w1
         /\ Index.step isNode toBase64 addSignature (Index.Wake r) w1
            = Some (Index.ledger_connect_body isNode r target w1).
Proof.
  intros Hpath Hdisc Hd Hlt.
  unfold Index.ledger_connect, Index.run_ledger_connect_path; cbn.
  rewrite Hpath, Hdisc; cbn.
  rewrite lookup_insert_eq. split_and!; try done.
  - cbn. rewrite lookup_insert_ne by lia. by rewrite Hd.
  - intros res. cbn. rewrite lookup_insert_ne by lia. rewrite Hd.
    eexists. split; [reflexivity |].
    destruct res as [[] | e]; cbn.
    all: rewrite lookup_insert_ne by lia.
    all: rewrite lookup_insert_eq; cbn.
    all: by rewrite lookup_insert_eq.
Qed.

Lemma connect_waits_for_disconnection_witness :
  Index.promises
    (snd (Index.ledger_connect false (Some (AccountNumber 1))
            index_disconnecting_world)) !! 5
  = Some (Index.Pending
            (Index.ledger_connect_at_disconnection "44'/148'/0'" 3))
  /\ Index.step false model_toBase64 model_addSignature (Index.Wake 5)
       (snd (Index.ledger_connect false (Some (AccountNumber 1))
               index_disconnecting_world)) = None.
Proof.
  pose proof (connect_waits_for_disconnection false model_toBase64
                model_addSignature index_disconnecting_world
                (AccountNumber 1) "44'/148'/0'" 3 7
                eq_refl eq_refl eq_refl ltac:(vm_compute; lia))
    as (H1 & _ & _ & _ & H2 & _).
  split; [exact H1 | exact H2].
Defined.

(** ** What signing leaves alone *)

(** X4.  Signing never changes the session: the call and the device's
    answer, whatever it is, leave the session properties, the attempt
    marker and the pending disconnection as they are, and no transaction
    other than the one passed in is touched.  Both revisions. *)
Theorem sign_frame
    (isNode : bool) (toBase64 : Bytes -> string)
    (addSignature : option string -> string -> Transaction -> Result Transaction)
    (signatureHint : option string -> Result Bytes)
    (w : Index.World) (v : Legacy.World) (tx : TxRef) (p : Pid)
    (res : Result Bytes) :
  (Index.ledger (snd (Index.ledger_sign tx w)) = Index.ledger w
   /\ Index.connection (snd (Index.ledger_sign tx w)) = Index.connection w
   /\ Index.disconnection (snd (Index.ledger_sign tx w))
      = Index.disconnection w
   /\ Index.txs (snd (Index.ledger_sign tx w)) = Index.txs w)
  /\ (Index.promises w !! p
      = Some (Index.Pending (Index.sign_at_signTransaction tx)) ->
      exists w',
        Index.step isNode toBase64 addSignature (Index.Signed p res) w
        = Some w'
        /\ Index.ledger w' = Index.ledger w
        /\ Index.connection w' = Index.connection w
        /\ Index.disconnection w' = Index.disconnection w
        /\ Index.effects w' = Index.effects w
        /\ forall k, k <> tx -> Index.txs w' !! k = Index.txs w !! k)
  /\ (Legacy.ledger (snd (Legacy.ledger_sign tx v)) = Legacy.ledger v
      /\ Legacy.connection (snd (Legacy.ledger_sign tx v))
         = Legacy.connection v
      /\ Legacy.disconnection (snd (Legacy.ledger_sign tx v))
         = Legacy.disconnection v
      /\ Legacy.txs (snd (Legacy.ledger_sign tx v)) = Legacy.txs v)
  /\ (Legacy.promises v !! p
      = Some (Legacy.Pending (Legacy.sign_at_signTransaction tx)) ->
      exists v',
        Legacy.step isNode signatureHint (Legacy.Signed p res) v = Some v'
        /\ Legacy.ledger v' = Legacy.ledger v
        /\ Legacy.connection v' = Legacy.connection v
        /\ Legacy.disconnection v' = Legacy.disconnection v
        /\ Legacy.effects v' = Legacy.effects v
        /\ forall k, k <> tx -> Legacy.txs v' !! k = Legacy.txs v !! k).
Proof.
  split; [| split; [| split]].
  - unfold Index.ledger_sign; cbn.
    destruct (truthy (Index.publicKey (Index.ledger w))),
      (Index.application (Index.ledger w)), (Index.txs w !! tx); done.
  - intros Hp. cbn. rewrite Hp. eexists; split; [reflexivity |].
    unfold Index.sign_after_signTransaction.
    destruct res as [sig | e]; cbn; [| done].
    destruct (Index.txs w !! tx) as [t0 |]; cbn; [| done].
    destruct (addSignature _ _ t0); cbn; split_and!; try done.
    intros k Hk. by apply lookup_insert_ne.
  - unfold Legacy.ledger_sign; cbn.
    destruct (truthy (Legacy.publicKey (Legacy.ledger v))),
      (Legacy.application (Legacy.ledger v)), (Legacy.txs v !! tx); done.
  - intros Hp. cbn. rewrite Hp. eexists; split; [reflexivity |].
    unfold Legacy.sign_after_signTransaction.
    destruct res as [sig | e]; cbn; [| done].
    destruct (signatureHint _); cbn; [| done].
    destruct (Legacy.txs v !! tx) as [t0 |]; cbn; split_and!; try done.
    intros k Hk. by apply lookup_insert_ne.
Qed.

Lemma sign_frame_witness :
  exists w',
    Index.step false model_toBase64 model_addSignature
      (Index.Signed 2 (Ok [Byte.x2a])) (snd (Index.ledger_sign 0 index_session))
    = Some w'
    /\ Index.ledger w' = Index.ledger index_session.
Proof.
  destruct (sign_frame false model_toBase64 model_addSignature
              model_signatureHint (snd (Index.ledger_sign 0 index_session))
              legacy_session 0 2 (Ok [Byte.x2a]))
    as (_ & Hstep & _).
  destruct (Hstep eq_refl) as (w' & Hw' & Hledger & _).
  exists w'. split; [exact Hw' | exact Hledger].
Defined.

(** ** Signing without a handle *)

(** X5.  [sign] called while a public key is stored but the application
    handle is unset, or on an object that is no transaction, is rejected
    with a [TypeError]: no request is sent and no transaction is touched.
    Both revisions. *)
Theorem sign_without_application
    (w : Index.World) (v : Legacy.World) (tx : TxRef) :
  (truthy (Index.publicKey (Index.ledger w)) = true ->
   Index.application (Index.ledger w) = None
   \/ Index.txs w !! tx = None ->
   Index.promises (snd (Index.ledger_sign tx w)) !! fst (Index.ledger_sign tx w)
   = Some (Index.Settled (Err TypeError))
   /\ Index.effects (snd (Index.ledger_sign tx w)) = Index.effects w
   /\ Index.txs (snd (Index.ledger_sign tx w)) = Index.txs w)
  /\ (truthy (Legacy.publicKey (Legacy.ledger v)) = true ->
      Legacy.application (Legacy.ledger v) = None
      \/ Legacy.txs v !! tx = None ->
      Legacy.promises (snd (Legacy.ledger_sign tx v))
        !! fst (Legacy.ledger_sign tx v)
      = Some (Legacy.Settled (Err TypeError))
      /\ Legacy.effects (snd (Legacy.ledger_sign tx v)) = Legacy.effects v
      /\ Legacy.txs (snd (Legacy.ledger_sign tx v)) = Legacy.txs v).
Proof.
  split; intros Hkey Hno.
  - unfold Index.ledger_sign; cbn. rewrite Hkey; cbn.
    destruct Hno as [-> | Htx]; cbn.
    + by rewrite lookup_insert_eq.
    + rewrite Htx. destruct (Index.application (Index.ledger w)); cbn;
        by rewrite lookup_insert_eq.
  - unfold Legacy.ledger_sign; cbn. rewrite Hkey; cbn.
    destruct Hno as [-> | Htx]; cbn.
    + destruct (Legacy.txs v !! tx); cbn; by rewrite lookup_insert_eq.
    + rewrite Htx. cbn. by rewrite lookup_insert_eq.
Qed.

Lemma sign_without_application_witness :
  Index.promises (snd (Index.ledger_sign 0 index_headless)) !! 2
  = Some (Index.Settled (Err TypeError))
  /\ Legacy.promises (snd (Legacy.ledger_sign 0 legacy_headless)) !! 3
     = Some (Legacy.Settled (Err TypeError)).
Proof.
  pose proof (sign_without_application index_headless legacy_headless 0)
    as [Hi Hl].
  split.
  - exact (proj1 (Hi eq_refl (or_introl eq_refl))).
  - exact (proj1 (Hl eq_refl (or_introl eq_refl))).
Defined.

(** ** The handshake *)

Ltac lookups :=
  repeat first
    [ rewrite lookup_insert_eq
    | rewrite lookup_insert_ne by lia ].

(** X6.  The first [connect()] of a fresh module opens a transport, reads
    the public key and the configuration, stores the path, notifies
    [onConnect] and resolves with [undefined]: the session then holds the
    transport, its application and the values the device reported.  The
    requests go out once each, in this order, under Node.js and in a
    browser alike. *)
Theorem connect_handshake
    (isNode : bool) (toBase64 : Bytes -> string)
    (addSignature : option string -> string -> Transaction -> Result Transaction)
    (w : Index.World) (account : Account) (target : string)
    (t : Transport) (pk v : string) (m : bool) :
  Index.ledger_connect_path account = Ok target ->
  Index.ledger w = index_blank ->
  Index.connection w = Index.MNull ->
  Index.disconnection w = None ->
  pk <> "" ->
  let r := Index.next w in
  let c := S (Index.next w) in
  exists w',
    Index.run isNode toBase64 addSignature
      [Index.CallConnect (Some account);
       Index.TransportCreated c (Ok t);
       Index.GotPublicKey c (Ok pk);
       Index.GotAppConfiguration c (Ok (v, m));
       Index.Wake r] w = Some w'
    /\ Index.ledger w' = index_established target t pk v m
    /\ Index.connection w' = Index.MPromise c
    /\ Index.promises w' !! r = Some (Index.Settled (Ok Index.VUndefined))
    /\ Index.promises w' !! c = Some (Index.Settled (Ok Index.VUndefined))
    /\ Index.effects w'
       = Index.effects w
         ++ [Index.FxLog "Attempting ledger connection...";
             Index.FxTransportCreate]
         ++ index_handshake_tail target t (Index.onConnectHandler w).
Proof.
  intros Hpath Hblank Hconn Hdisc Hpk.
  assert (Htruthy : truthy (Some pk) = true).
  { cbn. destruct (String.eqb_spec pk ""); [contradiction | reflexivity]. }
  cbn in Htruthy.
  destruct w as [l conn disc hc hd pr nx tx nw fx]; cbn in *; subst.
  unfold Index.ledger_connect, Index.run_ledger_connect_path; cbn.
  rewrite Hpath; cbn. unfold index_handshake_tail.
  destruct hc; cbn.
  all: repeat (progress (unfold_index_goal; unfold Index.fresh; cbn;
                         rewrite ?Htruthy; lookups)).
  all: eexists; split; [reflexivity |]; cbn; lookups.
  all: rewrite <- ?app_assoc; cbn; done.
Qed.

Lemma connect_handshake_witness :
  exists w',
    Index.run true model_toBase64 model_addSignature
      [Index.CallConnect (Some (AccountNumber 2));
       Index.TransportCreated 1 (Ok 7);
       Index.GotPublicKey 1 (Ok "GB");
       Index.GotAppConfiguration 1 (Ok ("3.0", true));
       Index.Wake 0] (Index.init 0 ∅) = Some w'
    /\ Index.ledger w' = index_established "44'/148'/1'" 7 "GB" "3.0" true.
Proof.
  destruct (connect_handshake true model_toBase64 model_addSignature
              (Index.init 0 ∅) (AccountNumber 2) "44'/148'/1'" 7 "GB" "3.0"
              true eq_refl eq_refl eq_refl eq_refl ltac:(discriminate))
    as (w' & Hrun & Hledger & _).
  exists w'. split; [exact Hrun | exact Hledger].
Defined.

Section IndexCancelled.

Variable isNode : bool.
Variable toBase64 : Bytes -> string.
Variable addSignature :
  option string -> string -> Transaction -> Result Transaction.

(** [disconnect()] leaves the calls that are waiting, the handlers and
    the clock as they are. *)
Lemma index_disconnect_frame w c task :
  Index.promises w !! c = Some (Index.Pending task) ->
  (c < Index.next w)%nat ->
  Index.promises (snd (Index.ledger_disconnect w)) !! c
  = Some (Index.Pending task)
  /\ Index.onConnectHandler (snd (Index.ledger_disconnect w))
     = Index.onConnectHandler w
  /\ Index.now (snd (Index.ledger_disconnect w)) = Index.now w.
Proof.
  intros Hc Hlt. unfold Index.ledger_disconnect; cbn.
  destruct (Index.transport (Index.ledger w)) as [t0 |],
    (Index.disconnection w) as [d |]; cbn.
  all: lookups; done.
Qed.

(** A handshake that goes on with the marker cleared. *)
Lemma index_handshake_completes w c path startTime t pk v m :
  Index.promises w !! c
  = Some (Index.Pending (Index.connect_at_create path startTime)) ->
  Index.ledger w = index_blank ->
  Index.connection w = Index.MNull ->
  exists w2,
    Index.run isNode toBase64 addSignature
      [Index.TransportCreated c (Ok t);
       Index.GotPublicKey c (Ok pk);
       Index.GotAppConfiguration c (Ok (v, m))] w = Some w2
    /\ Index.ledger w2 = index_established path t pk v m
    /\ Index.connection w2 = Index.MNull
    /\ Index.promises w2 !! c = Some (Index.Settled (Ok Index.VUndefined))
    /\ Index.effects w2
       = Index.effects w
         ++ index_handshake_tail path t (Index.onConnectHandler w).
Proof.
  intros Hc Hblank Hconn.
  destruct w as [l conn disc hc hd pr nx tx nw fx]; cbn in *; subst.
  unfold index_handshake_tail. rewrite Hc; cbn.
  destruct hc; cbn.
  all: repeat (progress (unfold_index_goal; cbn; lookups)).
  all: eexists; split; [reflexivity |]; cbn; lookups.
  all: rewrite <- ?app_assoc; cbn; done.
Qed.


End IndexCancelled.

(** X7.  [disconnect()] does not stop a handshake that is waiting for its
    transport: when the transport, the public key and the configuration
    arrive afterwards they are stored and [onConnect] is notified, although
    the marker of the attempt stays cleared; the loop ends and the
    attempt resolves. *)
Theorem handshake_outlives_disconnect
    (isNode : bool) (toBase64 : Bytes -> string)
    (addSignature : option string -> string -> Transaction -> Result Transaction)
    (w : Index.World) (c : Pid) (path : string) (startTime : Z)
    (t : Transport) (pk v : string) (m : bool) :
  Index.promises w !! c
  = Some (Index.Pending (Index.connect_at_create path startTime)) ->
  (c < Index.next w)%nat ->
  exists w2,
    Index.run isNode toBase64 addSignature
      [Index.TransportCreated c (Ok t);
       Index.GotPublicKey c (Ok pk);
       Index.GotAppConfiguration c (Ok (v, m))]
      (snd (Index.ledger_disconnect w)) = Some w2
    /\ Index.ledger (snd (Index.ledger_disconnect w)) = index_blank
    /\ Index.ledger w2 = index_established path t pk v m
    /\ Index.connection w2 = Index.MNull
    /\ Index.promises w2 !! c = Some (Index.Settled (Ok Index.VUndefined))
    /\ Index.effects w2
       = Index.effects (snd (Index.ledger_disconnect w))
         ++ index_handshake_tail path t (Index.onConnectHandler w).
Proof.
  intros Hc Hlt.
  destruct (index_disconnect_frame w c _ Hc Hlt) as (Hc1 & Hh & _).
  destruct (index_disconnect_clears w) as (Hblank & Hconn & _).
  destruct (index_handshake_completes isNode toBase64 addSignature _ c path
              startTime t pk v m Hc1 Hblank Hconn)
    as (w2 & Hrun & Hl & Hcn & Hp & Hfx).
  exists w2. rewrite Hh in Hfx. done.
Qed.

Lemma handshake_outlives_disconnect_witness :
  exists w2,
    Index.run false model_toBase64 model_addSignature
      [Index.TransportCreated 1 (Ok 7);
       Index.GotPublicKey 1 (Ok "GA");
       Index.GotAppConfiguration 1 (Ok ("3.0", false))]
      (snd (Index.ledger_disconnect index_connecting)) = Some w2
    /\ Index.ledger w2 = index_established "44'/148'/0'" 7 "GA" "3.0" false
    /\ Index.connection w2 = Index.MNull.
Proof.
  destruct (handshake_outlives_disconnect false model_toBase64
              model_addSignature index_connecting 1 "44'/148'/0'" 0 7 "GA"
              "3.0" false eq_refl ltac:(vm_compute; lia))
    as (w2 & Hrun & _ & Hledger & Hconn & _).
  exists w2. split_and!; [exact Hrun | exact Hledger | exact Hconn].
Defined.





(** ** Teardown *)

(** X10.  [disconnect()] on an open transport asks for [close()] once and
    waits for the answer; when it has come, with success or failure,
    [onDisconnect] is notified once, the call resolves and the pending
    disconnection is forgotten.  Without a transport and without pending
    disconnection the call resolves at once: nothing is closed and nobody
    is notified. *)
Theorem disconnect_closes_and_notifies
    (isNode : bool) (toBase64 : Bytes -> string)
    (addSignature : option string -> string -> Transaction -> Result Transaction)
    (w : Index.World) (t : Transport) (res : Result unit) :
  let r := Index.next w in
  let d := S (Index.next w) in
  let h := S (S (Index.next w)) in
  (Index.transport (Index.ledger w) = Some t ->
   Index.step isNode toBase64 addSignature (Index.Wake r)
     (snd (Index.ledger_disconnect w)) = None
   /\ exists w',
        Index.run isNode toBase64 addSignature
          [Index.CallDisconnect; Index.Closed d res; Index.Wake h;
           Index.Wake r] w = Some w'
        /\ Index.promises w' !! r = Some (Index.Settled (Ok Index.VUndefined))
        /\ Index.ledger w' = index_blank
        /\ Index.connection w' = Index.MNull
        /\ Index.disconnection w' = None
        /\ Index.effects w'
           = Index.effects w
             ++ index_teardown_trace t res (Index.onDisconnectHandler w))
  /\ (Index.transport (Index.ledger w) = None ->
      Index.disconnection w = None ->
      exists w',
        Index.step isNode toBase64 addSignature Index.CallDisconnect w
        = Some w'
        /\ Index.promises w' !! r = Some (Index.Settled (Ok Index.VUndefined))
        /\ Index.ledger w' = index_blank
        /\ Index.connection w' = Index.MNull
        /\ Index.disconnection w' = None
        /\ Index.effects w' = Index.effects w).
Proof.
  cbn. unfold index_teardown_trace. split.
  - intros Ht. unfold Index.ledger_disconnect; cbn. rewrite Ht; cbn.
    lookups; cbn. lookups. split; [done |].
    destruct (Index.onDisconnectHandler w) eqn:Hh, res as [[] | e]; cbn.
    all: repeat (progress (cbn; lookups)).
    all: unfold Index.onDisconnect; cbn; rewrite Hh.
    all: repeat (progress (cbn; lookups)).
    all: eexists; split; [reflexivity |]; cbn; lookups.
    all: rewrite <- ?app_assoc; cbn; done.
  - intros Ht Hd. unfold Index.ledger_disconnect; cbn. rewrite Ht; cbn.
    rewrite Hd; cbn.
    eexists; split; [reflexivity |]; cbn; lookups. done.
Qed.

Lemma disconnect_closes_and_notifies_witness :
  exists w',
    Index.run false model_toBase64 model_addSignature
      [Index.CallDisconnect; Index.Closed 3 (Err transient); Index.Wake 4;
       Index.Wake 2] index_session = Some w'
    /\ Index.effects w'
       = [Index.FxClose 7; Index.FxConsoleError transient;
          Index.FxLog "Ledger disconnected"].
Proof.
  destruct (disconnect_closes_and_notifies false model_toBase64
              model_addSignature index_session 7 (Err transient))
    as [Hopen _].
  destruct (Hopen eq_refl) as (_ & w' & Hrun & _ & _ & _ & _ & Hfx).
  exists w'. split; [exact Hrun | exact Hfx].
Defined.

(** * The earlier revision *)

Ltac unfold_legacy_goal :=
  unfold Legacy.wake;
  unfold Legacy.ledger_connect, Legacy.ledger_connect_body, Legacy.connect,
    Legacy.ledger_sign, Legacy.ledger_disconnect,
    Legacy.connect_after_create, Legacy.connect_after_getPublicKey,
    Legacy.connect_after_timeout, Legacy.connect_catch,
    Legacy.connect_loop, Legacy.connect_getPublicKey, Legacy.new_StellarApp,
    Legacy.sign_after_signTransaction, Legacy.wake,
    Legacy.onConnect_after_refresh, Legacy.onConnect,
    Legacy.polling_after_timeout, Legacy.polling, Legacy.polling_loop,
    Legacy.ledger_disconnect, Legacy.refreshAppConfiguration,
    Legacy.refresh_after_getAppConfiguration, Legacy.onDisconnect,
    Legacy.reset, Legacy.remembered, Legacy.fresh.

(** ** The remembered account *)

(** [makePath] reads an absent index as 0 and an absent flag as false. *)
Lemma makePath_defaults (a : Z) (i : option Z) (f : option bool) :
  Legacy.makePath a (Some (default 0%Z i)) (Some (default false f))
  = Legacy.makePath a i f.
Proof.
  unfold Legacy.makePath, Legacy.number_truthy.
  destruct i as [n |], f as [[] |]; cbn; try reflexivity.
Qed.

Section LegacyPath.

Variable isNode : bool.
Variable signatureHint : option string -> Result Bytes.

Lemma legacy_path_next ev v :
  legacy_path_inv v ->
  match Legacy.step isNode signatureHint ev v with
  | Some v' => legacy_path_inv v'
  | None => True
  end.
Proof.
  intros Hinv.
  destruct ev; cbn; unfold_legacy_goal.
  all: crunch.
  all: cbn.
  all: try done.
  all: destruct Hinv as [Hpath Htask]; split;
    [ intros q Hq; cbn in Hq |- *; simplify_eq;
      try done; try (by apply Hpath); try apply makePath_defaults;
      rewrite makePath_defaults; symmetry; eauto
    | intros q target' a' i' f' d' Hq; cbn in Hq; maps; eauto ].
Qed.

Lemma legacy_path_run evs v v' :
  legacy_path_inv v ->
  Legacy.run isNode signatureHint evs v = Some v' ->
  legacy_path_inv v'.
Proof.
  revert v. induction evs as [| ev evs IH]; intros v Hinv Hrun; cbn in Hrun.
  - by simplify_eq.
  - pose proof (legacy_path_next ev v Hinv) as Hnext.
    destruct (Legacy.step isNode signatureHint ev v) as [v1 |]; [| done].
    by eapply IH.
Qed.

End LegacyPath.

(** X11.  The stored path is always the path of the stored account, index
    and flag; hence [connect()] without arguments asks for the path of the
    session: while an attempt is in the marker and no disconnection is
    pending, it returns that attempt and changes nothing. *)
Theorem connect_without_arguments
    (isNode : bool) (signatureHint : option string -> Result Bytes)
    (t : Z) (store : gmap TxRef Transaction)
    (evs : list Legacy.Event) (v : Legacy.World) (c : Pid) :
  Legacy.run isNode signatureHint evs (Legacy.init t store) = Some v ->
  legacy_path_inv v
  /\ (is_Some (Legacy.path (Legacy.ledger v)) ->
      Legacy.disconnection v = None ->
      Legacy.connection v = Legacy.MPromise c ->
      Legacy.ledger_connect isNode None None None v
      = (Legacy.next v,
         Legacy.suspend (Legacy.next v) (Legacy.ledger_connect_return c)
           (Legacy.set_next (S (Legacy.next v)) v))).
Proof.
  intros Hrun.
  assert (Hinv : legacy_path_inv v).
  { eapply legacy_path_run; [| exact Hrun]. split; [done |].
    intros r target a i f d Hr. cbn in Hr. by rewrite lookup_empty in Hr. }
  split; [exact Hinv |].
  intros [p Hp] Hdisc Hconn. destruct Hinv as [Hpath _].
  specialize (Hpath p Hp).
  unfold Legacy.ledger_connect, Legacy.remembered; cbn. rewrite Hdisc.
  unfold Legacy.ledger_connect_body; cbn. rewrite Hpath, Hp.
  rewrite bool_decide_eq_true_2 by done; cbn.
  rewrite Hconn; cbn. rewrite Hconn. reflexivity.
Qed.

Lemma connect_without_arguments_witness :
  Legacy.ledger_connect false None None None legacy_connecting
  = (2%nat,
     Legacy.suspend 2 (Legacy.ledger_connect_return 1)
       (Legacy.set_next 3 legacy_connecting)).
Proof.
  refine (proj2 (connect_without_arguments false model_signatureHint 0
                   {[ 0%nat := sample_tx ]}
                   [Legacy.CallConnect (Some 0%Z) None None]
                   legacy_connecting 1 eq_refl) _ eq_refl eq_refl).
  eexists. reflexivity.
Defined.

(** ** The handshake of the earlier revision *)

(** X12.  In the earlier revision the first [connect(account, index,
    flag)] opens a transport, reads the public key and resolves: the
    session then holds the arguments, their path, the transport, a new
    application and the key.  The configuration is only requested, by
    [onConnect], which is still waiting when the call resolves. *)
Theorem legacy_connect_handshake
    (isNode : bool) (signatureHint : option string -> Result Bytes)
    (v : Legacy.World) (e0 : option JsError)
    (a : Z) (i : option Z) (f : option bool)
    (t : Transport) (pk : string) :
  Legacy.ledger v = legacy_blank e0 ->
  Legacy.connection v = Legacy.MNull ->
  Legacy.disconnection v = None ->
  pk <> "" ->
  let r := Legacy.next v in
  let c := S r in
  let app := S (S r) in
  let o := S (S (S r)) in
  let g := S (S (S (S r))) in
  exists v',
    Legacy.run isNode signatureHint
      [Legacy.CallConnect (Some a) i f;
       Legacy.TransportCreated c (Ok t);
       Legacy.GotPublicKey c (Ok pk);
       Legacy.Wake r] v = Some v'
    /\ Legacy.ledger v' = legacy_established a i f app t pk
    /\ Legacy.promises v' !! r = Some (Legacy.Settled (Ok Legacy.VUndefined))
    /\ Legacy.promises v' !! o
       = Some (Legacy.Pending (Legacy.onConnect_at_refresh g))
    /\ Legacy.promises v' !! g
       = Some (Legacy.Pending Legacy.refresh_at_getAppConfiguration)
    /\ Legacy.isPolling v' = Legacy.isPolling v
    /\ Legacy.effects v'
       = Legacy.effects v
         ++ [Legacy.FxLog "Attempting ledger connection...";
             Legacy.FxTransportCreate;
             Legacy.FxGetPublicKey (Legacy.StellarApp app t)
               (Some (Legacy.makePath a i f));
             Legacy.FxLog "Ledger connected";
             Legacy.FxGetAppConfiguration (Legacy.StellarApp app t)].
Proof.
  intros Hblank Hconn Hdisc Hpk.
  assert (Htruthy : truthy (Some pk) = true).
  { cbn. destruct (String.eqb_spec pk ""); [contradiction | reflexivity]. }
  cbn in Htruthy.
  repeat (progress (unfold_legacy_goal; cbn;
                    rewrite ?Hblank, ?Hconn, ?Hdisc, ?Htruthy;
                    rewrite ?bool_decide_eq_false_2 by done; lookups)).
  eexists; split; [reflexivity |]; cbn; lookups.
  rewrite <- ?app_assoc, Hblank; cbn; done.
Qed.

Lemma legacy_connect_handshake_witness :
  exists v',
    Legacy.run false model_signatureHint
      [Legacy.CallConnect (Some 3%Z) (Some 2%Z) None;
       Legacy.TransportCreated 1 (Ok 7);
       Legacy.GotPublicKey 1 (Ok "GA");
       Legacy.Wake 0] (Legacy.init 0 ∅) = Some v'
    /\ Legacy.ledger v'
       = legacy_established 3 (Some 2%Z) None 2 7 "GA".
Proof.
  destruct (legacy_connect_handshake false model_signatureHint
              (Legacy.init 0 ∅) None 3 (Some 2%Z) None 7 "GA"
              eq_refl eq_refl eq_refl ltac:(discriminate))
    as (v' & Hrun & Hledger & _).
  exists v'. split; [exact Hrun | exact Hledger].
Defined.

(** ** The liveness monitor *)

(** X13.  A configuration refresh never fails: whatever the device
    answers, its promise resolves.  The device counts as heard from when
    it answers, or when it refuses because it is signing a transaction;
    any other failure leaves the flag as it was.  Only an answer changes
    the session, and only its version and capability flag. *)
Theorem refresh_never_rejects
    (isNode : bool) (signatureHint : option string -> Result Bytes)
    (v : Legacy.World) (g : Pid) (res : Result (string * bool)) :
  Legacy.promises v !! g
  = Some (Legacy.Pending Legacy.refresh_at_getAppConfiguration) ->
  exists v',
    Legacy.step isNode signatureHint (Legacy.GotAppConfiguration g res) v
    = Some v'
    /\ Legacy.promises v' !! g = Some (Legacy.Settled (Ok Legacy.VUndefined))
    /\ Legacy.ping v'
       = match res with
         | Ok _ => true
         | Err e =>
             bool_decide (error_currentLock e = Some "signTransaction")
             || Legacy.ping v
         end
    /\ Legacy.ledger v'
       = match res with
         | Ok (ver, m) =>
             Legacy.set_multiOpsEnabled (Some m)
               (Legacy.set_version (Some ver) (Legacy.ledger v))
         | Err _ => Legacy.ledger v
         end
    /\ Legacy.connection v' = Legacy.connection v
    /\ Legacy.isPolling v' = Legacy.isPolling v
    /\ Legacy.effects v' = Legacy.effects v.
Proof.
  intros Hg. cbn. rewrite Hg.
  unfold Legacy.refresh_after_getAppConfiguration.
  destruct res as [[ver m] | e]; cbn.
  - eexists; split; [reflexivity |]; cbn; lookups. done.
  - destruct (decide (error_currentLock e = Some "signTransaction"))
      as [Hlock | Hlock]; cbn.
    + eexists; split; [reflexivity |]; cbn; lookups.
      rewrite bool_decide_eq_true_2 by done. done.
    + eexists; split; [reflexivity |]; cbn; lookups.
      rewrite bool_decide_eq_false_2 by done. done.
Qed.

Lemma refresh_never_rejects_witness :
  exists v',
    Legacy.step false model_signatureHint
      (Legacy.GotAppConfiguration 4 (Err busy_signing)) legacy_refreshing
    = Some v'
    /\ Legacy.promises v' !! 4 = Some (Legacy.Settled (Ok Legacy.VUndefined))
    /\ Legacy.ping v' = true.
Proof.
  destruct (refresh_never_rejects false model_signatureHint legacy_refreshing
              4 (Err busy_signing) eq_refl)
    as (v' & Hstep & Hp & Hping & _).
  exists v'. split_and!; [exact Hstep | exact Hp | exact Hping].
Defined.

(** X14.  One cycle of the monitor.  Its timer does not fire before the
    interval of one second is over.  When it fires and the device was not
    heard from, [disconnect()] is called and the monitor waits for it.
    When the device was heard from and the application is still the one
    the monitor was started for, the flag is cleared, a refresh is
    requested and the timer set again.  When the application is another
    one, the monitor logs its end and stops, leaving [isPolling] as it
    is. *)
Theorem monitor_cycle
    (isNode : bool) (signatureHint : option string -> Result Bytes)
    (v : Legacy.World) (p : Pid) (key : option Legacy.App) (deadline : Z) :
  Legacy.promises v !! p
  = Some (Legacy.Pending (Legacy.polling_at_timeout key deadline)) ->
  (p < Legacy.next v)%nat ->
  ((Legacy.now v < deadline)%Z ->
   Legacy.step isNode signatureHint (Legacy.TimerFired p) v = None)
  /\ ((deadline <= Legacy.now v)%Z ->
      exists v',
        Legacy.step isNode signatureHint (Legacy.TimerFired p) v = Some v'
        /\ (Legacy.ping v = false ->
            Legacy.promises v' !! p
            = Some (Legacy.Pending
                      (Legacy.polling_at_disconnect key (Legacy.next v)))
            /\ v' = Legacy.suspend p
                      (Legacy.polling_at_disconnect key (Legacy.next v))
                      (snd (Legacy.ledger_disconnect v))
            /\ Legacy.isPolling v' = false)
        /\ (Legacy.ping v = true ->
            key = Legacy.application (Legacy.ledger v) ->
            Legacy.promises v' !! p
            = Some (Legacy.Pending
                      (Legacy.polling_at_timeout key
                         (Legacy.now v + Legacy.pollingDelay)))
            /\ Legacy.ping v' = false
            /\ Legacy.ledger v' = Legacy.ledger v
            /\ Legacy.effects v' = Legacy.effects v ++ legacy_cycle_trace key)
        /\ (Legacy.ping v = true ->
            key <> Legacy.application (Legacy.ledger v) ->
            Legacy.promises v' !! p
            = Some (Legacy.Settled (Ok Legacy.VUndefined))
            /\ Legacy.isPolling v' = Legacy.isPolling v
            /\ Legacy.ledger v' = Legacy.ledger v
            /\ Legacy.effects v'
               = Legacy.effects v ++ [Legacy.FxLog "Stop polling"])).
Proof.
  intros Hp Hlt. split.
  - intros Hearly. cbn. rewrite Hp.
    destruct (Z.leb_spec deadline (Legacy.now v)); [lia | done].
  - intros Hdue. cbn. rewrite Hp.
    destruct (Z.leb_spec deadline (Legacy.now v)); [| lia].
    eexists; split; [reflexivity |].
    unfold Legacy.polling_after_timeout.
    split_and!.
    + intros Hping. rewrite Hping; cbn.
      unfold Legacy.ledger_disconnect; cbn.
      destruct (Legacy.transport (Legacy.ledger v)); cbn; lookups; done.
    + intros Hping Hkey. rewrite Hping; cbn.
      unfold Legacy.polling_loop, legacy_cycle_trace.
      rewrite bool_decide_eq_true_2 by done; cbn.
      unfold Legacy.refreshAppConfiguration; cbn. subst key.
      destruct (Legacy.application (Legacy.ledger v)); cbn; lookups.
      all: rewrite <- ?app_assoc; done.
    + intros Hping Hkey. rewrite Hping; cbn.
      unfold Legacy.polling_loop.
      rewrite bool_decide_eq_false_2 by done; cbn. lookups. done.
Qed.

Lemma monitor_cycle_witness :
  exists v',
    Legacy.step false model_signatureHint (Legacy.TimerFired 5)
      (legacy_monitored true) = Some v'
    /\ Legacy.ping v' = false
    /\ Legacy.effects v'
       = [Legacy.FxGetAppConfiguration (Legacy.StellarApp 2 7);
          Legacy.FxSetTimeout 1000].
Proof.
  destruct (monitor_cycle false model_signatureHint (legacy_monitored true) 5
              (Some (Legacy.StellarApp 2 7)) 1000 eq_refl
              ltac:(vm_compute; lia))
    as [_ Hdue].
  destruct (Hdue ltac:(vm_compute; discriminate))
    as (v' & Hstep & _ & Halive & _).
  destruct (Halive eq_refl eq_refl) as (_ & Hping & _ & Hfx).
  exists v'. split_and!; [exact Hstep | exact Hping | exact Hfx].
Defined.

(** X15.  When [onConnect] goes on after its refresh, the handler is
    notified, and a monitor is started only if none is marked as running:
    then [isPolling] is set, and the first cycle clears the flag, requests
    a refresh and sets the timer.  Either way [isPolling] holds
    afterwards. *)
Theorem onConnect_starts_one_monitor
    (isNode : bool) (signatureHint : option string -> Result Bytes)
    (v : Legacy.World) (o g : Pid) (x : Legacy.Value) :
  Legacy.promises v !! o
  = Some (Legacy.Pending (Legacy.onConnect_at_refresh g)) ->
  Legacy.promises v !! g = Some (Legacy.Settled (Ok x)) ->
  (o < Legacy.next v)%nat ->
  exists v',
    Legacy.step isNode signatureHint (Legacy.Wake o) v = Some v'
    /\ Legacy.promises v' !! o = Some (Legacy.Settled (Ok Legacy.VUndefined))
    /\ Legacy.isPolling v' = true
    /\ Legacy.ledger v' = Legacy.ledger v
    /\ (Legacy.isPolling v = true ->
        Legacy.next v' = Legacy.next v
        /\ Legacy.ping v' = Legacy.ping v
        /\ Legacy.effects v'
           = Legacy.effects v
             ++ (if Legacy.onConnectHandler v then [Legacy.FxOnConnect]
                 else []))
    /\ (Legacy.isPolling v = false ->
        Legacy.promises v' !! Legacy.next v
        = Some (Legacy.Pending
                  (Legacy.polling_at_timeout
                     (Legacy.application (Legacy.ledger v))
                     (Legacy.now v + Legacy.pollingDelay)))
        /\ Legacy.ping v' = false
        /\ Legacy.effects v'
           = Legacy.effects v
             ++ (if Legacy.onConnectHandler v then [Legacy.FxOnConnect]
                 else [])
             ++ [Legacy.FxLog "Start polling"]
             ++ legacy_cycle_trace (Legacy.application (Legacy.ledger v))).
Proof.
  intros Ho Hg Hlt. cbn. rewrite Ho; cbn. rewrite Hg; cbn.
  eexists; split; [reflexivity |].
  unfold Legacy.onConnect_after_refresh, legacy_cycle_trace.
  destruct (Legacy.onConnectHandler v) eqn:Hh,
    (Legacy.isPolling v) eqn:Hpoll; cbn; rewrite ?Hpoll; cbn.
  all: unfold Legacy.polling, Legacy.polling_loop; cbn.
  all: rewrite ?bool_decide_eq_true_2 by done; cbn.
  all: unfold Legacy.refreshAppConfiguration; cbn.
  all: destruct (Legacy.application (Legacy.ledger v)); cbn; lookups.
  all: split_and!; try done.
  all: intros _; cbn; lookups; rewrite <- ?app_assoc, ?app_nil_r; cbn; done.
Qed.

Lemma onConnect_starts_one_monitor_witness :
  exists v',
    Legacy.step false model_signatureHint (Legacy.Wake 3) legacy_connected
    = Some v'
    /\ Legacy.isPolling v' = true
    /\ Legacy.promises v' !! 5
       = Some (Legacy.Pending
                 (Legacy.polling_at_timeout
                    (Some (Legacy.StellarApp 2 7)) 1000)).
Proof.
  destruct (onConnect_starts_one_monitor false model_signatureHint
              legacy_connected 3 4 Legacy.VUndefined eq_refl eq_refl
              ltac:(vm_compute; lia))
    as (v' & Hstep & _ & Hpoll & _ & _ & Hstart).
  destruct (Hstart eq_refl) as (Hp & _).
  exists v'. split_and!; [exact Hstep | exact Hpoll | exact Hp].
Defined.

(** ** Teardown in the earlier revision *)

(** X16.  In the earlier revision [disconnect()] on an open transport
    stops the monitor flag and asks for [close()], and leaves the session
    as it is; only when [close()] has succeeded is the session reset (but
    for the last failure) and [onDisconnect] notified, and the call
    resolves.  The pending disconnection stays in place.  Without a
    transport the call resolves at once and changes nothing but
    [isPolling]. *)
Theorem legacy_disconnect_closes
    (isNode : bool) (signatureHint : option string -> Result Bytes)
    (v : Legacy.World) (t : Transport) :
  let r := Legacy.next v in
  let d := S (Legacy.next v) in
  let h := S (S (Legacy.next v)) in
  (Legacy.transport (Legacy.ledger v) = Some t ->
   Legacy.ledger (snd (Legacy.ledger_disconnect v)) = Legacy.ledger v
   /\ Legacy.connection (snd (Legacy.ledger_disconnect v))
      = Legacy.connection v
   /\ Legacy.isPolling (snd (Legacy.ledger_disconnect v)) = false
   /\ exists v',
        Legacy.run isNode signatureHint
          [Legacy.CallDisconnect; Legacy.Closed d (Ok tt); Legacy.Wake h;
           Legacy.Wake r] v = Some v'
        /\ Legacy.promises v' !! r
           = Some (Legacy.Settled (Ok Legacy.VUndefined))
        /\ Legacy.ledger v' = legacy_blank (Legacy.error (Legacy.ledger v))
        /\ Legacy.connection v' = Legacy.MNull
        /\ Legacy.disconnection v' = Some d
        /\ Legacy.effects v'
           = Legacy.effects v
             ++ [Legacy.FxClose t; Legacy.FxLog "Ledger disconnected"]
             ++ (if Legacy.onDisconnectHandler v
                 then [Legacy.FxOnDisconnect] else []))
  /\ (Legacy.transport (Legacy.ledger v) = None ->
      exists v',
        Legacy.step isNode signatureHint Legacy.CallDisconnect v = Some v'
        /\ Legacy.promises v' !! r
           = Some (Legacy.Settled (Ok Legacy.VUndefined))
        /\ Legacy.ledger v' = Legacy.ledger v
        /\ Legacy.connection v' = Legacy.connection v
        /\ Legacy.disconnection v' = Legacy.disconnection v
        /\ Legacy.isPolling v' = false
        /\ Legacy.effects v' = Legacy.effects v).
Proof.
  cbn. split.
  - intros Ht. unfold Legacy.ledger_disconnect; cbn. rewrite Ht; cbn.
    split_and!; try done.
    destruct (Legacy.onDisconnectHandler v) eqn:Hh.
    all: repeat (progress (cbn; lookups)).
    all: unfold Legacy.onDisconnect; cbn; rewrite Hh.
    all: repeat (progress (cbn; lookups)).
    all: eexists; split; [reflexivity |]; cbn; lookups.
    all: rewrite <- ?app_assoc, ?app_nil_r; cbn; done.
  - intros Ht. unfold Legacy.ledger_disconnect; cbn. rewrite Ht; cbn.
    eexists; split; [reflexivity |]; cbn; lookups. done.
Qed.

Lemma legacy_disconnect_closes_witness :
  exists v',
    Legacy.run false model_signatureHint
      [Legacy.CallDisconnect; Legacy.Closed 4 (Ok tt); Legacy.Wake 5;
       Legacy.Wake 3] legacy_session = Some v'
    /\ Legacy.ledger v' = legacy_blank None
    /\ Legacy.disconnection v' = Some 4.
Proof.
  destruct (legacy_disconnect_closes false model_signatureHint legacy_session
              7) as [Hopen _].
  destruct (Hopen eq_refl)
    as (_ & _ & _ & v' & Hrun & _ & Hledger & _ & Hdisc & _).
  exists v'. split_and!; [exact Hrun | exact Hledger | exact Hdisc].
Defined.

(** X17.  In the earlier revision a failure of [close()] is the failure of
    [disconnect()]: the call is rejected with it, the session is not
    reset and nobody is notified.  The failed disconnection stays in
    place, so every later [connect] call, whatever its arguments, is
    rejected with the same failure and starts nothing. *)
Theorem legacy_disconnect_close_fails
    (isNode : bool) (signatureHint : option string -> Result Bytes)
    (v : Legacy.World) (t : Transport) (e : JsError) :
  Legacy.transport (Legacy.ledger v) = Some t ->
  let r := Legacy.next v in
  let d := S (Legacy.next v) in
  let h := S (S (Legacy.next v)) in
  exists v',
    Legacy.run isNode signatureHint
      [Legacy.CallDisconnect; Legacy.Closed d (Err e); Legacy.Wake h;
       Legacy.Wake r] v = Some v'
    /\ Legacy.promises v' !! r = Some (Legacy.Settled (Err e))
    /\ Legacy.ledger v' = Legacy.ledger v
    /\ Legacy.connection v' = Legacy.connection v
    /\ Legacy.disconnection v' = Some d
    /\ Legacy.effects v' = Legacy.effects v ++ [Legacy.FxClose t]
    /\ forall a i f,
         exists v'',
           Legacy.run isNode signatureHint
             [Legacy.CallConnect a i f; Legacy.Wake (Legacy.next v')] v'
           = Some v''
           /\ Legacy.promises v'' !! Legacy.next v'
              = Some (Legacy.Settled (Err e))
           /\ Legacy.ledger v'' = Legacy.ledger v
           /\ Legacy.connection v'' = Legacy.connection v
           /\ Legacy.disconnection v'' = Some d
           /\ Legacy.effects v'' = Legacy.effects v'.
Proof.
  intros Ht. cbn. unfold Legacy.ledger_disconnect; cbn. rewrite Ht; cbn.
  repeat (progress (cbn; lookups)).
  eexists; split; [reflexivity |]; cbn; lookups.
  split_and!; try done.
  intros a i f. unfold Legacy.ledger_connect; cbn.
  destruct a as [a |]; cbn.
  all: repeat (progress (cbn; lookups)).
  all: eexists; split; [reflexivity |]; cbn; lookups; done.
Qed.

Lemma legacy_disconnect_close_fails_witness :
  exists v',
    Legacy.run false model_signatureHint
      [Legacy.CallDisconnect; Legacy.Closed 4 (Err transient); Legacy.Wake 5;
       Legacy.Wake 3] legacy_session = Some v'
    /\ Legacy.promises v' !! 3 = Some (Legacy.Settled (Err transient))
    /\ Legacy.ledger v' = Legacy.ledger legacy_session.
Proof.
  destruct (legacy_disconnect_close_fails false model_signatureHint
              legacy_session 7 transient eq_refl)
    as (v' & Hrun & Hp & Hledger & _).
  exists v'. split_and!; [exact Hrun | exact Hp | exact Hledger].
Defined.

(** ** Switching accounts *)

(** X18.  In a browser, [connect] for another account on an established
    session keeps the open transport and its application: after the soft
    reset the public key of the new path is asked for at once, no
    transport is created or closed, and when the device has answered the
    session holds the new path and key on the old transport. *)
Theorem account_switch_reuses_transport
    (toBase64 : Bytes -> string)
    (addSignature : option string -> string -> Transaction -> Result Transaction)
    (w : Index.World) (account : Account) (target q : string)
    (t : Transport) (a : Index.App) (pk v : string) (m : bool) :
  Index.ledger_connect_path account = Ok target ->
  Index.disconnection w = None ->
  Index.path (Index.ledger w) = Some q ->
  truthy (Some q) = true ->
  q <> target ->
  Index.transport (Index.ledger w) = Some t ->
  Index.application (Index.ledger w) = Some a ->
  pk <> "" ->
  let r := Index.next w in
  let c := S (Index.next w) in
  exists w',
    Index.run false toBase64 addSignature
      [Index.CallConnect (Some account);
       Index.GotPublicKey c (Ok pk);
       Index.GotAppConfiguration c (Ok (v, m));
       Index.Wake r] w = Some w'
    /\ Index.ledger w'
       = {| Index.publicKey := Some pk; Index.path := Some target;
            Index.version := Some v; Index.multiOpsEnabled := Some m;
            Index.transport := Some t; Index.application := Some a |}
    /\ Index.connection w' = Index.MPromise c
    /\ Index.promises w' !! r = Some (Index.Settled (Ok Index.VUndefined))
    /\ Index.effects w'
       = Index.effects w
         ++ [Index.FxLog "Attempting ledger connection...";
             Index.FxGetPublicKey a target;
             Index.FxGetAppConfiguration a;
             Index.FxLog "Ledger connected"]
         ++ (if Index.onConnectHandler w then [Index.FxOnConnect] else []).
Proof.
  intros Hpath Hdisc Hq Hqt Hne Ht Ha Hpk.
  assert (Htruthy : truthy (Some pk) = true).
  { cbn. destruct (String.eqb_spec pk ""); [contradiction | reflexivity]. }
  cbn in Htruthy, Hqt.
  assert (Hguard : bool_decide (Some q = Some target) = false).
  { apply bool_decide_eq_false_2. congruence. }
  unfold Index.ledger_connect, Index.run_ledger_connect_path; cbn.
  rewrite Hpath; cbn.
  destruct (Index.onConnectHandler w) eqn:Hh.
  all: repeat (progress (unfold_index_goal; unfold Index.fresh; cbn;
                         rewrite ?Hdisc, ?Hq, ?Hqt, ?Hguard, ?Ht, ?Ha,
                           ?Htruthy, ?Hh;
                         lookups)).
  all: eexists; split; [reflexivity |]; cbn; lookups.
  all: rewrite <- ?app_assoc; cbn; split_and!; try done.
  all: clear - Ht; revert Ht; destruct (Index.ledger w); cbn.
  all: by intros ->.
Qed.

Lemma account_switch_reuses_transport_witness :
  exists w',
    Index.run false model_toBase64 model_addSignature
      [Index.CallConnect (Some (AccountNumber 2));
       Index.GotPublicKey 3 (Ok "GB");
       Index.GotAppConfiguration 3 (Ok ("3.0", false));
       Index.Wake 2] index_session = Some w'
    /\ Index.ledger w'
       = {| Index.publicKey := Some "GB"; Index.path := Some "44'/148'/1'";
            Index.version := Some "3.0";
            Index.multiOpsEnabled := Some false;
            Index.transport := Some 7;
            Index.application := Some (Index.StellarApp 7) |}.
Proof.
  destruct (account_switch_reuses_transport model_toBase64 model_addSignature
              index_session (AccountNumber 2) "44'/148'/1'" "44'/148'/0'"
              7 (Index.StellarApp 7) "GB" "3.0" false
              eq_refl eq_refl eq_refl eq_refl ltac:(discriminate)
              eq_refl eq_refl ltac:(discriminate))
    as (w' & Hrun & Hledger & _).
  exists w'. split; [exact Hrun | exact Hledger].
Defined.
